(** * Property management API: query builders, repository and handlers

    A shallow embedding of the JavaScript sources
    - [utils/propertyDataQueryBuilder.js] (row query builders),
    - [utils/columnQueryBuilder.js] (column DDL builders),
    - [models/propertyModel.js] (repository),
    - [controllers/propertyController.js] (HTTP handlers),
    - [config/checkSchema.js] (startup schema reconciliation),
    together with the properties the specification states about them.

    Conventions of the embedding.
    - A JavaScript string is the Rocq [string] of its UTF-8 bytes.
      [toUpperCase] is spelled out for ASCII and for the two letters
      U+0131 and U+017F; for every other code point it asks the runtime's
      Unicode case table, which is a parameter ([CaseTable]).
    - A plain object is the list of its own enumerable properties in the
      order [Object.keys] yields them.
    - [await pool.query(...)] is a step of a state-and-error monad over an
      arbitrary database: the call is recorded, the database answers with
      rows or rejects with an error message.
    - A rejected promise / thrown [Error] is the [inl] of a sum, carrying
      the error's [message]. *)

From stdpp Require Import base list sets sorting strings.
From Stdlib Require Import Ascii DecimalString DecimalNat.


(** ** Strings *)

(** [`${n}`] for a non-negative integer [n]. *)
Definition show_nat (n : nat) : string :=
  NilZero.string_of_uint (Nat.to_uint n).

(** [Array.prototype.join] on an array of strings. *)
Fixpoint join (sep : string) (l : list string) : string :=
  match l with
  | [] => ""
  | [x] => x
  | x :: l' => x +:+ sep +:+ join sep l'
  end.

(** ASCII part of [String.prototype.toUpperCase]. *)
Definition upper_ascii (c : Ascii.ascii) : Ascii.ascii :=
  let n := Ascii.nat_of_ascii c in
  if (97 <=? n)%nat && (n <=? 122)%nat then Ascii.ascii_of_nat (n - 32) else c.

(** Bytes of the UTF-8 form of a string: an ASCII character is one byte
    below 128; any other code point is a lead byte followed by its
    continuation bytes (128 to 191). *)
Definition is_ascii (c : Ascii.ascii) : bool :=
  (Ascii.nat_of_ascii c <? 128)%nat.

Definition is_continuation (c : Ascii.ascii) : bool :=
  let n := Ascii.nat_of_ascii c in (128 <=? n)%nat && (n <? 192)%nat.

(** The Unicode case table of the runtime, for the code points not
    spelled out below: [upper_other u] is the upper-case form (in UTF-8)
    of the code point whose UTF-8 bytes are [u]. Nothing is assumed about
    it. *)
Class CaseTable : Type := { upper_other : string -> string }.

(** U+0131 (dotless i) and U+017F (long s), in UTF-8. *)
Definition dotless_i : string :=
  String (Ascii.ascii_of_nat 196) (String (Ascii.ascii_of_nat 177) EmptyString).

Definition long_s : string :=
  String (Ascii.ascii_of_nat 197) (String (Ascii.ascii_of_nat 191) EmptyString).

(** A table for examples in which no other code point occurs. *)
Definition keep_others : CaseTable := {| upper_other := fun u => u |}.

Section UpperCase.
Context {table : CaseTable}.

(** Upper-case form of one code point outside ASCII, given by its bytes:
    U+0131 becomes I, U+017F becomes S, the rest is the table's. *)
Definition upper_code_point (u : string) : string :=
  if String.eqb u dotless_i then "I"
  else if String.eqb u long_s then "S"
  else upper_other u.

(** The code point read so far is complete: write its upper-case form. *)
Definition flush (pending : string) : string :=
  match pending with
  | EmptyString => EmptyString
  | String _ _ => upper_code_point pending
  end.

(** [String.prototype.toUpperCase] maps code point by code point.
    [pending] holds the bytes of the code point being read. *)
Fixpoint upper_go (pending s : string) : string :=
  match s with
  | EmptyString => flush pending
  | String b s' =>
      if is_continuation b then upper_go (pending +:+ String b EmptyString) s'
      else if is_ascii b
      then flush pending +:+ String (upper_ascii b) (upper_go EmptyString s')
      else flush pending +:+ upper_go (String b EmptyString) s'
  end.

Definition toUpperCase (s : string) : string := upper_go EmptyString s.

End UpperCase.

(** [s.endsWith(suffix)], used to state facts about generated text. *)
Definition ends_with (s suffix : string) : Prop :=
  exists pre : string, s = pre +:+ suffix.

(** ** Plain JavaScript objects *)

Module JsObject.

(** Value of a decimal digit string, if it is one. *)
Definition digit_of (c : Ascii.ascii) : option N :=
  let n := Ascii.N_of_ascii c in
  if (48 <=? n)%N && (n <=? 57)%N then Some (n - 48)%N else None.

Fixpoint digits_value (acc : N) (s : string) : option N :=
  match s with
  | EmptyString => Some acc
  | String c s' =>
      match digit_of c with
      | Some d => digits_value (10 * acc + d)%N s'
      | None => None
      end
  end.

(** ECMAScript "array index": a canonical numeric string whose value is
    below [2^32 - 1]. Such keys are enumerated first, in ascending
    numeric order. *)
Definition array_index (k : string) : option N :=
  match k with
  | EmptyString => None
  | String c rest =>
      match digits_value 0 k with
      | Some n =>
          if (negb (Ascii.eqb c "0"%char) || String.eqb rest "")
             && (n <? 4294967295)%N
          then Some n else None
      | None => None
      end
  end.

(** Own enumerable string-keyed properties, in enumeration order. *)
Abbreviation obj V := (list (string * V)).

Section WithValues.
Context {V : Type}.

(** [Object.keys(o)] and [Object.values(o)]. *)
Definition keys (o : obj V) : list string := o.*1.
Definition values (o : obj V) : list V := o.*2.

(** [o[k]] for an own property: [None] stands for [undefined]. The code
    reads no inherited property. *)
Fixpoint get (o : obj V) (k : string) : option V :=
  match o with
  | [] => None
  | (k', v) :: o' => if String.eqb k' k then Some v else get o' k
  end.

Definition has (o : obj V) (k : string) : bool :=
  existsb (String.eqb k) (keys o).

Fixpoint replace (o : obj V) (k : string) (v : V) : obj V :=
  match o with
  | [] => []
  | (k', v') :: o' =>
      if String.eqb k' k then (k', v) :: o' else (k', v') :: replace o' k v
  end.

(** Position of a new array-index key [k] (of value [n]): after the
    smaller array-index keys, before everything else. *)
Fixpoint insert_index (o : obj V) (n : N) (k : string) (v : V) : obj V :=
  match o with
  | [] => [(k, v)]
  | (k', v') :: o' =>
      match array_index k' with
      | Some m =>
          if (m <? n)%N then (k', v') :: insert_index o' n k v
          else (k, v) :: o
      | None => (k, v) :: o
      end
  end.

(** [o[k] = v] on an ordinary object: an existing property keeps its
    place, a new array-index key is placed among the array-index
    keys, any other new key goes last. The name [__proto__], unless it is
    an own property already, reaches the prototype accessor and adds no
    property. *)
Definition set (o : obj V) (k : string) (v : V) : obj V :=
  if has o k then replace o k v
  else if String.eqb k "__proto__" then o
  else match array_index k with
       | Some n => insert_index o n k v
       | None => o ++ [(k, v)]
       end.

(** The order in which [Object.keys] lists two distinct keys. *)
Definition key_before (k1 k2 : string) : Prop :=
  match array_index k1, array_index k2 with
  | Some a, Some b => (a < b)%N
  | Some _, None => True
  | None, Some _ => False
  | None, None => True
  end.


(** What holds of every object, an own [__proto__] key or not: distinct
    keys, listed in enumeration order. *)
Definition enumerated (o : obj V) : Prop :=
  NoDup (keys o) /\ StronglySorted key_before (keys o).

End WithValues.

End JsObject.

Import JsObject.

(** ** Row query builders ([utils/propertyDataQueryBuilder.js]) *)

Record built_query (V : Type) : Type := BuiltQuery {
  query : string;
  values : list V
}.
Arguments BuiltQuery {V} _ _.
Arguments query {V} _.
Arguments values {V} _.

Section QueryBuilders.
Context {V : Type}.

Definition buildSelectQuery (table : string) (conditions : obj V)
    (columns : list string) : built_query V :=
  let keys := JsObject.keys conditions in
  let whereClause :=
    if (length keys =? 0)%nat then ""
    else " WHERE " +:+
         join " AND " (imap (fun i key => key +:+ " = $" +:+ show_nat (i + 1)) keys) in
  let values := JsObject.values conditions in
  let query := "SELECT " +:+ join ", " columns +:+ " FROM " +:+ table +:+ whereClause in
  BuiltQuery query values.

Definition buildInsertQuery (table : string) (data : obj V) : built_query V :=
  let keys := JsObject.keys data in
  let values := JsObject.values data in
  let placeholders := join ", " (imap (fun i _ => "$" +:+ show_nat (i + 1)) keys) in
  let query :=
    "INSERT INTO " +:+ table +:+ " (" +:+ join ", " keys +:+ ") VALUES ("
    +:+ placeholders +:+ ") RETURNING *" in
  BuiltQuery query values.

Definition buildUpdateQuery (table : string) (data conditions : obj V)
    : built_query V :=
  let dataKeys := JsObject.keys data in
  let conditionKeys := JsObject.keys conditions in
  let setClause :=
    join ", " (imap (fun i key => key +:+ " = $" +:+ show_nat (i + 1)) dataKeys) in
  let whereClause :=
    join " AND "
      (imap (fun i key => key +:+ " = $" +:+ show_nat (length dataKeys + i + 1))
            conditionKeys) in
  let query :=
    "UPDATE " +:+ table +:+ " SET " +:+ setClause +:+ " WHERE " +:+ whereClause
    +:+ " RETURNING *" in
  let values := JsObject.values data ++ JsObject.values conditions in
  BuiltQuery query values.

Definition buildDeleteQuery (table : string) (conditions : obj V)
    : built_query V :=
  let keys := JsObject.keys conditions in
  let whereClause :=
    join " AND " (imap (fun i key => key +:+ " = $" +:+ show_nat (i + 1)) keys) in
  let query := "DELETE FROM " +:+ table +:+ " WHERE " +:+ whereClause in
  let values := JsObject.values conditions in
  BuiltQuery query values.

End QueryBuilders.


(** ** Column DDL builders ([utils/columnQueryBuilder.js]) *)

(** A template literal that spans several source lines. *)
Definition nl : string := String (Ascii.ascii_of_nat 10) EmptyString.
Definition template (lines : list string) : string := join nl lines.

Definition validTypes : list string :=
  ["VARCHAR"; "TEXT"; "NUMERIC"; "INTEGER"; "BOOLEAN"; "DATE"; "TIMESTAMP"].

(** [Array.prototype.includes] on an array of strings, for a string. *)
Definition includes_str (l : list string) (s : string) : bool :=
  existsb (String.eqb s) l.

Section TypeValidation.
Context {table : CaseTable}.

Definition validateColumnType (columnType : string) : bool :=
  includes_str validTypes (toUpperCase columnType).

Definition buildAddColumnQuery (columnName columnType : string)
    : string + string :=
  if negb (validateColumnType columnType) then inl "Invalid column type"
  else inr ("ALTER TABLE property_data ADD COLUMN " +:+ columnName +:+ " "
            +:+ toUpperCase columnType +:+ ";").

End TypeValidation.

Definition buildRenameColumnQuery (oldColumnName newColumnName : string)
    : string :=
  "ALTER TABLE property_data RENAME COLUMN " +:+ oldColumnName +:+ " TO "
  +:+ newColumnName +:+ ";".

Definition buildDeleteColumnQuery (columnName : string) : string :=
  "ALTER TABLE property_data DROP COLUMN " +:+ columnName +:+ ";".

Definition buildGetColumnsQuery (table : string) : string :=
  template [
    "";
    "    SELECT column_name, data_type ";
    "    FROM information_schema.columns ";
    "    WHERE table_name = '" +:+ table +:+ "'";
    "  "
  ].

(** The specification's reading of [validateColumnType]: the type equals
    one of the allowed names once letter case is ignored. Two characters
    agree up to case when they are equal or are the same letter of the
    alphabet A..Z / a..z. *)
Definition letter_index (c : Ascii.ascii) : option nat :=
  let n := Ascii.nat_of_ascii c in
  if (65 <=? n)%nat && (n <=? 90)%nat then Some (n - 65)
  else if (97 <=? n)%nat && (n <=? 122)%nat then Some (n - 97)
  else None.

Definition same_letter (a b : Ascii.ascii) : bool :=
  Ascii.eqb a b
  || match letter_index a, letter_index b with
     | Some i, Some j => (i =? j)%nat
     | _, _ => false
     end.

Fixpoint eq_ignoring_case (s t : string) : bool :=
  match s, t with
  | EmptyString, EmptyString => true
  | String a s', String b t' => same_letter a b && eq_ignoring_case s' t'
  | _, _ => false
  end.

Definition allowed_ignoring_case (columnType : string) : bool :=
  existsb (eq_ignoring_case columnType) validTypes.

(** ** Values, rows and the database connection *)

(** JSON-like values carried in request bodies and result rows. The code
    never computes with them; numbers are kept as integers. *)
#[warnings="-register-all"]
Inductive value : Type :=
| VUndefined
| VNull
| VBool (b : bool)
| VNum (n : Z)
| VStr (s : string)
| VArr (l : list value)
| VObj (o : list (string * value)).

Abbreviation row := (list (string * value)).

(** [o.k] read as a value: a missing property reads [undefined]. *)
Definition prop (o : obj value) (k : string) : value :=
  default VUndefined (JsObject.get o k).

(** ToBoolean. *)
Definition truthy (v : value) : bool :=
  match v with
  | VUndefined | VNull => false
  | VBool b => b
  | VNum n => negb (n =? 0)%Z
  | VStr s => negb (String.eqb s "")
  | VArr _ | VObj _ => true
  end.

(** [array.includes(key)] for a string [key] against arbitrary values
    (SameValueZero: only an equal string matches). *)
Definition is_str (key : string) (v : value) : bool :=
  match v with
  | VStr s => String.eqb s key
  | _ => false
  end.

Definition includes (l : list value) (key : string) : bool :=
  existsb (is_str key) l.

(** [list.forEach(body)] with the mutated variables passed as state. *)
Definition forEach {A S : Type} (l : list A) (body : A -> S -> S) (s : S) : S :=
  foldl (fun s a => body a s) s l.

(** One [pool.query(text, values)] call; a call without a values
    argument is recorded with no values. *)
Definition call : Type := string * list value.

Inductive console_line : Type :=
| ConsoleLog (text : string)
| ConsoleError (text : string) (message : string).

(** The state of a run: the database behind the pool, the queries sent
    so far and the console output so far (oldest first). *)
Record world (DB : Type) : Type := World {
  db : DB;
  calls : list call;
  console : list console_line
}.
Arguments World {DB} _ _ _.
Arguments db {DB} _.
Arguments calls {DB} _.
Arguments console {DB} _.

(** An [async] computation: it settles with a rejection ([inl message])
    or a value ([inr]), and leaves a new state. *)
Definition M (DB A : Type) : Type := world DB -> (string + A) * world DB.

Definition ret {DB A} (a : A) : M DB A := fun w => (inr a, w).

Definition throw {DB A} (message : string) : M DB A := fun w => (inl message, w).

Definition bind {DB A B} (m : M DB A) (k : A -> M DB B) : M DB B :=
  fun w =>
    match m w with
    | (inl e, w') => (inl e, w')
    | (inr a, w') => k a w'
    end.

(** [try { m } catch (error) { handler(error.message) }]. *)
Definition try_catch {DB A} (m : M DB A) (handler : string -> M DB A) : M DB A :=
  fun w =>
    match m w with
    | (inl e, w') => handler e w'
    | (inr a, w') => (inr a, w')
    end.

Definition console_log {DB} (text : string) : M DB unit :=
  fun w => (inr tt, World (db w) (calls w) (console w ++ [ConsoleLog text])).

Definition console_error {DB} (text message : string) : M DB unit :=
  fun w => (inr tt, World (db w) (calls w) (console w ++ [ConsoleError text message])).

Declare Scope async_scope.
Delimit Scope async_scope with async.
Notation "x <- m ;; k" := (bind m (fun x => k))
  (at level 100, m at next level, right associativity) : async_scope.
Notation "m ;;; k" := (bind m (fun _ => k))
  (at level 100, right associativity) : async_scope.
Local Open Scope async_scope.

(** A database: how it answers one statement and what state it is left
    in. [await pool.query(sql, values)] records the call and asks it. *)
Definition executor (DB : Type) : Type :=
  DB -> string -> list value -> (string + list row) * DB.

Definition pool_query {DB} (exec : executor DB) (sql : string) (vals : list value)
    : M DB (list row) :=
  fun w =>
    let '(answer, d) := exec (db w) sql vals in
    (answer, World d (calls w ++ [(sql, vals)]) (console w)).

(** ** Repository ([models/propertyModel.js]) *)

Module PropertyModel.
Section WithPool.
Context {table : CaseTable} {DB : Type} (exec : executor DB).

(** The catalog query of [getTableColumnsNames]. *)
Definition columnNamesQuery : string :=
  template [
    "";
    "    SELECT column_name ";
    "    FROM information_schema.columns ";
    "    WHERE table_name = 'property_data';";
    "  "
  ].

Definition getTableColumnsNames : M DB (list value) :=
  let query := columnNamesQuery in
  result <- pool_query exec query [] ;;
  ret (map (fun row => prop row "column_name") result).

Definition getTableColumns : M DB (list row) :=
  let query := buildGetColumnsQuery "property_data" in
  result <- pool_query exec query [] ;;
  ret result.

Definition fetchAllProperties : M DB (list row) :=
  let q := buildSelectQuery "property_data" [] ["*"] in
  result <- pool_query exec (query q) (values q) ;;
  ret result.

(** [result.rows[0]]: [None] is [undefined]. *)
Definition fetchPropertyById (id : value) : M DB (option row) :=
  let q := buildSelectQuery "property_data" [("id", id)] ["*"] in
  result <- pool_query exec (query q) (values q) ;;
  ret (head result).

Definition insertProperty (newProperty : obj value) : M DB (option row) :=
  tableColumns <- getTableColumnsNames ;;
  let propertyData :=
    forEach (JsObject.keys newProperty) (fun key propertyData =>
      if includes tableColumns key
      then JsObject.set propertyData key (prop newProperty key)
      else propertyData) [] in
  if (length (JsObject.keys propertyData) =? 0)%nat
  then throw "No valid columns found to insert"
  else
    let q := buildInsertQuery "property_data" propertyData in
    result <- pool_query exec (query q) (values q) ;;
    ret (head result).

Definition updateProperty (id : value) (updates : obj value)
    : M DB (option row) :=
  tableColumns <- getTableColumnsNames ;;
  let updateData :=
    forEach (JsObject.keys updates) (fun key updateData =>
      if includes tableColumns key
      then JsObject.set updateData key (prop updates key)
      else updateData) [] in
  if (length (JsObject.keys updateData) =? 0)%nat
  then throw "No valid columns found to update"
  else
    let q := buildUpdateQuery "property_data" updateData [("id", id)] in
    result <- pool_query exec (query q) (values q) ;;
    ret (head result).

Definition deleteProperty (id : value) : M DB unit :=
  let q := buildDeleteQuery "property_data" [("id", id)] in
  _ <- pool_query exec (query q) (values q) ;;
  ret tt.

Definition addColumn (columnName columnType : string) : M DB unit :=
  existingColumns <- getTableColumnsNames ;;
  if includes existingColumns columnName
  then throw ("Column '" +:+ columnName
              +:+ "' already exists in the property_data table.")
  else
    match buildAddColumnQuery columnName columnType with
    | inl message => throw message
    | inr query => _ <- pool_query exec query [] ;; ret tt
    end.

Definition renameColumn (oldColumnName newColumnName : string) : M DB unit :=
  let query := buildRenameColumnQuery oldColumnName newColumnName in
  _ <- pool_query exec query [] ;;
  ret tt.

Definition deleteColumn (columnName : string) : M DB unit :=
  let query := buildDeleteColumnQuery columnName in
  _ <- pool_query exec query [] ;;
  ret tt.

End WithPool.
End PropertyModel.

(** ** HTTP handlers ([controllers/propertyController.js]) *)

(** What a handler passes to [res.status(code).json(payload)]. *)
Inductive payload : Type :=
| Rows (data : list row)
| Row (property : option row)
| Message (message : string)
| ErrorMessage (error : string).

Record response : Type := Response {
  status : nat;
  json : payload
}.

Module PropertyController.
Section WithPool.
Context {table : CaseTable} {DB : Type} (exec : executor DB).

Definition getAllProperties : M DB response :=
  try_catch
    (data <- PropertyModel.fetchAllProperties exec ;;
     ret (Response 200 (Rows data)))
    (fun message => ret (Response 500 (ErrorMessage message))).

(** [id] is [req.params.id]. *)
Definition getPropertyById (id : string) : M DB response :=
  try_catch
    (property <- PropertyModel.fetchPropertyById exec (VStr id) ;;
     match property with
     | None => ret (Response 404 (Message "Property not found"))
     | Some _ => ret (Response 200 (Row property))
     end)
    (fun message => ret (Response 500 (ErrorMessage message))).

(** [body] is [req.body]. *)
Definition addProperty (body : obj value) : M DB response :=
  try_catch
    (let newProperty := body in
     result <- PropertyModel.insertProperty exec newProperty ;;
     ret (Response 201 (Row result)))
    (fun message => ret (Response 500 (ErrorMessage message))).

Definition updateProperty (id : string) (body : obj value) : M DB response :=
  try_catch
    (let updates := body in
     result <- PropertyModel.updateProperty exec (VStr id) updates ;;
     ret (Response 200 (Row result)))
    (fun message => ret (Response 500 (ErrorMessage message))).

Definition deleteProperty (id : string) : M DB response :=
  try_catch
    (_ <- PropertyModel.deleteProperty exec (VStr id) ;;
     ret (Response 200 (Message "Property deleted successfully")))
    (fun message => ret (Response 500 (ErrorMessage message))).

(** The column handlers, for string-valued request fields. *)
Definition addColumn (columnName columnType : string) : M DB response :=
  try_catch
    (_ <- PropertyModel.addColumn exec columnName columnType ;;
     ret (Response 201 (Message ("Column '" +:+ columnName +:+ "' added successfully"))))
    (fun message => ret (Response 500 (ErrorMessage message))).

Definition renameColumn (oldColumnName newName : string) : M DB response :=
  try_catch
    (_ <- PropertyModel.renameColumn exec oldColumnName newName ;;
     ret (Response 200 (Message ("Column '" +:+ oldColumnName +:+ "' renamed to '"
                                 +:+ newName +:+ "'"))))
    (fun message => ret (Response 500 (ErrorMessage message))).

Definition deleteColumn (columnName : string) : M DB response :=
  try_catch
    (_ <- PropertyModel.deleteColumn exec columnName ;;
     ret (Response 200 (Message ("Column '" +:+ columnName +:+ "' deleted successfully"))))
    (fun message => ret (Response 500 (ErrorMessage message))).

Definition getColumns : M DB response :=
  try_catch
    (columns <- PropertyModel.getTableColumns exec ;;
     ret (Response 200 (Rows columns)))
    (fun message => ret (Response 500 (ErrorMessage message))).

End WithPool.
End PropertyController.

(** ** Startup schema reconciliation ([config/checkSchema.js]) *)

Module CheckSchema.

Record column : Type := Column {
  column_name : string;
  data_type : string
}.

Definition requiredColumns : list column := [
  Column "property_name" "VARCHAR";
  Column "address" "VARCHAR";
  Column "total_area_in_sqft" "NUMERIC";
  Column "price_in_cr" "NUMERIC";
  Column "listed_date" "DATE";
  Column "status" "VARCHAR";
  Column "total_earnings" "NUMERIC"
].

Definition tableCheckQuery : string :=
  template [
    "";
    "      SELECT EXISTS (";
    "        SELECT FROM information_schema.tables ";
    "        WHERE table_name = 'property_data'";
    "      );";
    "    "
  ].

Definition createTableQuery : string :=
  template [
    "";
    "        CREATE TABLE property_data (";
    "          id SERIAL PRIMARY KEY,";
    "          property_name VARCHAR,";
    "          address VARCHAR,";
    "          total_area_in_sqft NUMERIC,";
    "          price_in_cr NUMERIC,";
    "          listed_date DATE,";
    "          status VARCHAR,";
    "          total_earnings NUMERIC";
    "        );";
    "      "
  ].

Definition columnNamesQuery : string :=
  template [
    "";
    "    SELECT column_name ";
    "    FROM information_schema.columns ";
    "    WHERE table_name = 'property_data';";
    "  "
  ].

(** The statement text built in [addColumn]. *)
Definition addColumnQuery (column : column) : string :=
  "ALTER TABLE property_data ADD COLUMN " +:+ column_name column +:+ " "
  +:+ data_type column +:+ ";".

Section WithPool.
Context {DB : Type} (exec : executor DB).

(** [for (let x of l) { await body(x) }]: stops at the first rejection. *)
Fixpoint for_of {A : Type} (l : list A) (body : A -> M DB unit) : M DB unit :=
  match l with
  | [] => ret tt
  | x :: l' => (body x ;;; for_of l' body)
  end.

Definition getTableColumns : M DB (list value) :=
  let query := columnNamesQuery in
  result <- pool_query exec query [] ;;
  ret (map (fun row => prop row "column_name") result).

Definition addColumn (column : column) : M DB unit :=
  try_catch
    (let query := addColumnQuery column in
     _ <- pool_query exec query [] ;;
     console_log ("Column '" +:+ column_name column +:+ "' added successfully."))
    (fun message =>
       console_error ("Error adding column " +:+ column_name column +:+ ":") message).

Definition ensureColumns : M DB unit :=
  existingColumns <- getTableColumns ;;
  for_of requiredColumns (fun column =>
    if negb (includes existingColumns (column_name column))
    then addColumn column
    else ret tt).

Definition ensureTableSchema : M DB unit :=
  try_catch
    (tableCheckResult <- pool_query exec tableCheckQuery [] ;;
     exists_ <- match head tableCheckResult with
                | Some first => ret (prop first "exists")
                | None => throw "Cannot read properties of undefined (reading 'exists')"
                end ;;
     (if negb (truthy exists_)
      then (console_log "Table property_data does not exist. Creating table..." ;;;
            _ <- pool_query exec createTableQuery [] ;;
            console_log "Table property_data created successfully.")
      else console_log "Table property_data already exists.") ;;;
     ensureColumns)
    (fun message => console_error "Error ensuring table schema:" message).

End WithPool.
End CheckSchema.

(** ** The metadata catalog *)

(** The database as reconciliation sees it: whether the table exists and
    which columns it has. *)
Module Catalog.

(** [None]: there is no table [property_data]; [Some cols]: the table
    exists with the columns [cols], oldest first. *)
Definition state : Type := option (list string).

Inductive statement : Type :=
| TableCheck
| CreateTable
| ColumnNames
| AddColumn (name : string)
| Unsupported.

Definition classify (sql : string) : statement :=
  if String.eqb sql CheckSchema.tableCheckQuery then TableCheck
  else if String.eqb sql CheckSchema.createTableQuery then CreateTable
  else if String.eqb sql CheckSchema.columnNamesQuery then ColumnNames
  else match find (fun c => String.eqb sql (CheckSchema.addColumnQuery c))
                  CheckSchema.requiredColumns with
       | Some c => AddColumn (CheckSchema.column_name c)
       | None => Unsupported
       end.

(** The columns the CREATE TABLE statement of the reconciler declares. *)
Definition createdColumns : list string := [
  "id"; "property_name"; "address"; "total_area_in_sqft"; "price_in_cr";
  "listed_date"; "status"; "total_earnings"
].

(** Modelled from the spec: the database behind the connection pool
    ([config/db.js] and the PostgreSQL server it connects to), which is
    not part of the sources. The specification calls it the metadata
    catalog, "the database's built-in description of tables and columns,
    queried to discover current schema". Only what reconciliation sends
    is given a meaning: the existence check, the column listing,
    CREATE TABLE and ADD COLUMN of a baseline column, each of which
    succeeds when the catalog allows it; any other statement is rejected
    and changes nothing. *)
Definition exec : executor state :=
  fun st sql _ =>
    match classify sql with
    | TableCheck =>
        (inr [[("exists", VBool (match st with Some _ => true | None => false end))]], st)
    | CreateTable =>
        match st with
        | None => (inr [], Some createdColumns)
        | Some _ => (inl "relation property_data already exists", st)
        end
    | ColumnNames =>
        (inr (map (fun c => [("column_name", VStr c)]) (default [] st)), st)
    | AddColumn name =>
        match st with
        | Some cols =>
            if includes_str cols name
            then (inl ("column " +:+ name +:+ " of relation property_data already exists"), st)
            else (inr [], Some (cols ++ [name]))
        | None => (inl "relation property_data does not exist", st)
        end
    | Unsupported => (inl "statement not supported", st)
    end.

(** One run of the reconciler at process start, on a fresh log. *)
Definition startup (st : state) : (string + unit) * world state :=
  CheckSchema.ensureTableSchema exec (World st [] []).

Definition has_column (st : state) (name : string) : Prop :=
  match st with
  | Some cols => name ∈ cols
  | None => False
  end.

End Catalog.

(** ** Specification-side definitions *)

(** "k1 = $p, k2 = $(p+1), ...": the keys paired with consecutive
    placeholder numbers, starting at [start]. *)
Fixpoint numbered (start : nat) (ks : list string) : list string :=
  match ks with
  | [] => []
  | k :: ks' => (k +:+ " = $" +:+ show_nat start) :: numbered (S start) ks'
  end.

(** The text of each query as the specification writes it, from the
    table name and the column names alone. *)
Definition select_text (table : string) (keys columns : list string) : string :=
  "SELECT " +:+ join ", " columns +:+ " FROM " +:+ table
  +:+ match keys with
      | [] => ""
      | _ => " WHERE " +:+ join " AND " (numbered 1 keys)
      end.

Definition insert_text (table : string) (keys : list string) : string :=
  "INSERT INTO " +:+ table +:+ " (" +:+ join ", " keys +:+ ") VALUES ("
  +:+ join ", " (map (fun p => "$" +:+ show_nat p) (seq 1 (length keys)))
  +:+ ") RETURNING *".

Definition update_text (table : string) (dataKeys conditionKeys : list string)
    : string :=
  "UPDATE " +:+ table +:+ " SET " +:+ join ", " (numbered 1 dataKeys)
  +:+ " WHERE " +:+ join " AND " (numbered (length dataKeys + 1) conditionKeys)
  +:+ " RETURNING *".

Definition delete_text (table : string) (keys : list string) : string :=
  "DELETE FROM " +:+ table +:+ " WHERE " +:+ join " AND " (numbered 1 keys).

(** A lower-case ASCII letter. *)
Definition is_lower (c : Ascii.ascii) : bool :=
  let n := Ascii.nat_of_ascii c in (97 <=? n)%nat && (n <=? 122)%nat.

Fixpoint chars (s : string) : list Ascii.ascii :=
  match s with
  | EmptyString => []
  | String c s' => c :: chars s'
  end.

(** The calls a run added to the log. *)
Definition issued {DB} (before after : world DB) : list call :=
  drop (length (calls before)) (calls after).

(** [result.rows[0]] of an answer, a rejection being passed on. *)
Definition first_row (answer : string + list row) : string + option row :=
  match answer with
  | inl message => inl message
  | inr rows => inr (head rows)
  end.

(** An answer whose rows are not looked at. *)
Definition no_value (answer : string + list row) : string + unit :=
  match answer with
  | inl message => inl message
  | inr _ => inr tt
  end.

Definition is_space (c : Ascii.ascii) : bool :=
  let n := Ascii.nat_of_ascii c in (n =? 32)%nat || ((9 <=? n)%nat && (n <=? 13)%nat).

Fixpoint trimStart (s : string) : string :=
  match s with
  | EmptyString => EmptyString
  | String c s' => if is_space c then trimStart s' else s
  end.

(** A statement that defines or alters a table. *)
Definition is_ddl (sql : string) : bool :=
  let s := trimStart sql in
  String.prefix "CREATE TABLE" s || String.prefix "ALTER TABLE" s
  || String.prefix "DROP TABLE" s.

(** A scripted connection in the manner of the repository's tests
    ([sinon.stub(pool, 'query')]): the state is the list of answers still
    to give, each call takes the next one. *)
Definition queryStub : executor (list (string + list row)) :=
  fun answers _ _ =>
    match answers with
    | answer :: rest => (answer, rest)
    | [] => (inl "queryStub: no answer left", [])
    end.


(** The baseline column names, and "baseline \ existing columns". *)
Definition baseline : list string :=
  map CheckSchema.column_name CheckSchema.requiredColumns.

Definition missingColumns (existing : list string) : list CheckSchema.column :=
  List.filter (fun c => negb (includes_str existing (CheckSchema.column_name c)))
              CheckSchema.requiredColumns.

(** The statements reconciliation may send. *)
Definition reconciler_statement (sql : string) : Prop :=
  sql = CheckSchema.tableCheckQuery
  \/ sql = CheckSchema.createTableQuery
  \/ sql = CheckSchema.columnNamesQuery
  \/ exists c, c ∈ CheckSchema.requiredColumns /\ sql = CheckSchema.addColumnQuery c.

(** [s.startsWith(pre)], as a proposition. *)
Definition starts_with (s pre : string) : Prop :=
  exists rest : string, s = pre +:+ rest.


(** A handler run that sent one statement, left the database in state
    [d] and answered 500 with [message]. *)
Definition failed_after_one_call {DB} (w : world DB) (d : DB) (message : string)
    (run : (string + response) * world DB) : Prop :=
  exists c : call,
    run = (inr (Response 500 (ErrorMessage message)),
           World d (calls w ++ [c]) (console w)).

(** The console line for the ADD COLUMN of [c], given the database's
    answer to it: the success line when the statement was accepted, the
    error line with the message of the rejection when it was not. *)
Definition report (c : CheckSchema.column) (answer : string + list row)
    : console_line :=
  match answer with
  | inl message =>
      ConsoleError ("Error adding column " +:+ CheckSchema.column_name c +:+ ":")
                   message
  | inr _ =>
      ConsoleLog ("Column '" +:+ CheckSchema.column_name c
                  +:+ "' added successfully.")
  end.

(** One ADD COLUMN after the other for the columns [l], starting in the
    database state [d]: the state the last one leaves, and the console
    line of each. The next statement runs in the state its predecessor
    left, accepted or not. *)
Fixpoint attempts {DB} (exec : executor DB) (d : DB) (l : list CheckSchema.column)
    : DB * list console_line :=
  match l with
  | [] => (d, [])
  | c :: l' =>
      let answer := exec d (CheckSchema.addColumnQuery c) [] in
      let later := attempts exec answer.2 l' in
      (later.1, report c answer.1 :: later.2)
  end.

(** [s.includes(word)]. *)
Fixpoint occurs (word s : string) : bool :=
  String.prefix word s
  || match s with
     | EmptyString => false
     | String _ s' => occurs word s'
     end.

(** Upper-casing of the ASCII letters alone, and strings made of ASCII
    characters only. *)
Fixpoint ascii_upper (s : string) : string :=
  match s with
  | EmptyString => EmptyString
  | String c s' => String (upper_ascii c) (ascii_upper s')
  end.

Definition ascii_only (s : string) : bool := forallb is_ascii (chars s).

(** Every character there is, for checks by enumeration. *)
Definition all_ascii : list Ascii.ascii := map Ascii.ascii_of_nat (seq 0 256).

(** The properties the copying loop of [insertProperty] and
    [updateProperty] leaves in the fresh object: those whose key is a table
    column, but never an own [__proto__] key, whose assignment reaches the
    prototype accessor of the fresh object. *)
Definition copied (tableColumns : list value) (o : obj value) : obj value :=
  List.filter (fun kv => includes tableColumns kv.1
                         && negb (String.eqb kv.1 "__proto__")) o.

(** Whether a statement has the keyword [word] anywhere in its text, in
    whatever letter case. *)
Definition mentions (word sql : string) : bool :=
  occurs word (ascii_upper sql).

(** * Properties *)

(** ** Query builders *)

Lemma append_assoc (s t u : string) : (s +:+ t) +:+ u = s +:+ (t +:+ u).
Proof.
  induction s as [|c s IH]; [done|].
  change (String c ((s +:+ t) +:+ u) = String c (s +:+ (t +:+ u))).
  by rewrite IH.
Qed.

Section BuilderFacts.
Context {V : Type}.
Implicit Types (data conditions : obj V) (table : string).

Lemma imap_numbered (n : nat) (ks : list string) :
  imap (fun i key => key +:+ " = $" +:+ show_nat (n + i + 1)) ks
  = numbered (n + 1) ks.
Proof.
  revert n. induction ks as [|k ks IH]; intros n; [done|].
  rewrite imap_cons. cbn [numbered]. f_equal.
  - by rewrite Nat.add_0_r.
  - etrans; [|exact (IH (S n))]. apply imap_ext. intros i x _. cbn.
    by replace (n + S i + 1) with (S (n + i + 1)) by lia.
Qed.

Lemma imap_numbered_1 (ks : list string) :
  imap (fun i key => key +:+ " = $" +:+ show_nat (i + 1)) ks = numbered 1 ks.
Proof. apply (imap_numbered 0). Qed.

Lemma numbered_lookup (start : nat) (ks : list string) (i : nat) (k : string) :
  ks !! i = Some k ->
  numbered start ks !! i = Some (k +:+ " = $" +:+ show_nat (start + i)).
Proof.
  revert start i. induction ks as [|k' ks IH]; intros start [|i] H; try done.
  - injection H as ->. cbn [numbered]. by rewrite Nat.add_0_r.
  - cbn [numbered]. change (numbered (S start) ks !! i
      = Some (k +:+ " = $" +:+ show_nat (start + S i))).
    rewrite (IH (S start) i H).
    by replace (S start + i) with (start + S i) by lia.
Qed.

Lemma keys_length data : length (JsObject.keys data) = length data.
Proof. unfold JsObject.keys. by rewrite length_fmap. Qed.

Lemma values_length data : length (JsObject.values data) = length data.
Proof. unfold JsObject.values. by rewrite length_fmap. Qed.

Lemma buildUpdateQuery_text table data conditions :
  query (buildUpdateQuery table data conditions)
  = "UPDATE " +:+ table +:+ " SET "
    +:+ join ", " (numbered 1 (JsObject.keys data))
    +:+ " WHERE "
    +:+ join " AND " (numbered (length data + 1) (JsObject.keys conditions))
    +:+ " RETURNING *".
Proof.
  unfold buildUpdateQuery. cbn [query].
  by rewrite imap_numbered_1, imap_numbered, keys_length.
Qed.

Lemma imap_placeholders (n : nat) (ks : list string) :
  imap (fun i (_ : string) => "$" +:+ show_nat (n + i + 1)) ks
  = map (fun p => "$" +:+ show_nat p) (seq (n + 1) (length ks)).
Proof.
  revert n. induction ks as [|k ks IH]; intros n; [done|].
  rewrite imap_cons. cbn [length seq map]. f_equal.
  - by rewrite Nat.add_0_r.
  - etrans; [|exact (IH (S n))]. apply imap_ext. intros i x _. cbn.
    by replace (n + S i + 1) with (S (n + i + 1)) by lia.
Qed.

Lemma buildSelectQuery_text table conditions columns :
  query (buildSelectQuery table conditions columns)
  = select_text table (JsObject.keys conditions) columns.
Proof.
  unfold buildSelectQuery, select_text. cbn [query].
  rewrite imap_numbered_1. by destruct (JsObject.keys conditions).
Qed.

Lemma buildInsertQuery_text table data :
  query (buildInsertQuery table data) = insert_text table (JsObject.keys data).
Proof.
  unfold buildInsertQuery, insert_text. cbn [query].
  by rewrite (imap_placeholders 0).
Qed.

Lemma buildDeleteQuery_text table conditions :
  query (buildDeleteQuery table conditions)
  = delete_text table (JsObject.keys conditions).
Proof.
  unfold buildDeleteQuery, delete_text. cbn [query]. by rewrite imap_numbered_1.
Qed.

Lemma keys_lookup data i k v :
  data !! i = Some (k, v) -> JsObject.keys data !! i = Some k.
Proof. intros H. unfold JsObject.keys. by rewrite list_lookup_fmap, H. Qed.

Lemma values_lookup data i k v :
  data !! i = Some (k, v) -> JsObject.values data !! i = Some v.
Proof. intros H. unfold JsObject.values. by rewrite list_lookup_fmap, H. Qed.

(** The [i]-th SET assignment and the value bound to its placeholder. *)
Lemma update_set_binding table data conditions i k v :
  data !! i = Some (k, v) ->
  numbered 1 (JsObject.keys data) !! i = Some (k +:+ " = $" +:+ show_nat (i + 1))
  /\ values (buildUpdateQuery table data conditions) !! i = Some v.
Proof.
  intros Hi. split.
  - rewrite (numbered_lookup 1 _ i k (keys_lookup _ _ _ _ Hi)).
    by replace (1 + i) with (i + 1) by lia.
  - cbn [buildUpdateQuery values]. rewrite lookup_app_l.
    + by apply (values_lookup _ _ k).
    + rewrite values_length. by eapply lookup_lt_Some.
Qed.

(** The [j]-th WHERE condition and the value bound to its placeholder. *)
Lemma update_where_binding table data conditions j k v :
  conditions !! j = Some (k, v) ->
  numbered (length data + 1) (JsObject.keys conditions) !! j
  = Some (k +:+ " = $" +:+ show_nat (length data + j + 1))
  /\ values (buildUpdateQuery table data conditions) !! (length data + j) = Some v.
Proof.
  intros Hj. split.
  - rewrite (numbered_lookup _ _ j k (keys_lookup _ _ _ _ Hj)).
    by replace (length data + 1 + j) with (length data + j + 1) by lia.
  - cbn [buildUpdateQuery values].
    rewrite lookup_app_r; rewrite values_length; [|lia].
    replace (length data + j - length data) with j by lia.
    by apply (values_lookup _ _ k).
Qed.

End BuilderFacts.

(** C1: [buildUpdateQuery] numbers the SET placeholders from 1 and lets
    the WHERE placeholders continue after them; the bind values are the
    data values followed by the condition values, so that the value at
    position [p - 1] is the one placeholder [$p] stands for. On
    ['t', {a:1,b:2}, {id:5}] this gives placeholders 1, 2, 3 and values
    [[1,2,5]]. *)
Theorem buildUpdateQuery_numbering :
  (forall (V : Type) (table : string) (data conditions : obj V),
     let q := buildUpdateQuery table data conditions in
     let n := length data in
     query q
     = "UPDATE " +:+ table +:+ " SET "
       +:+ join ", " (numbered 1 (JsObject.keys data))
       +:+ " WHERE "
       +:+ join " AND " (numbered (n + 1) (JsObject.keys conditions))
       +:+ " RETURNING *"
     /\ values q = JsObject.values data ++ JsObject.values conditions
     /\ (forall i k v, data !! i = Some (k, v) ->
           numbered 1 (JsObject.keys data) !! i
           = Some (k +:+ " = $" +:+ show_nat (i + 1))
           /\ values q !! i = Some v)
     /\ (forall j k v, conditions !! j = Some (k, v) ->
           numbered (n + 1) (JsObject.keys conditions) !! j
           = Some (k +:+ " = $" +:+ show_nat (n + j + 1))
           /\ values q !! (n + j) = Some v))
  /\ buildUpdateQuery "t" [("a", 1%Z); ("b", 2%Z)] [("id", 5%Z)]
     = BuiltQuery "UPDATE t SET a = $1, b = $2 WHERE id = $3 RETURNING *"
                  [1%Z; 2%Z; 5%Z].
Proof.
  split; [|reflexivity].
  intros V table data conditions q n. subst q n.
  split; [apply buildUpdateQuery_text|].
  split; [reflexivity|]. split.
  - intros i k v Hi. by apply update_set_binding.
  - intros j k v Hj. by apply update_where_binding.
Qed.

(** C2: the text of a built query is a function of the table name (and
    the column list, for SELECT) and of the keys of the objects, which are
    written into it as they are; the values go to the bind array only,
    one per key and in key order. Two calls that agree on the table and
    the keys produce the same text whatever the values are. *)
Theorem query_text_ignores_values :
  forall (V W : Type) (table : string) (columns : list string)
         (data conditions : obj V) (data' conditions' : obj W),
    JsObject.keys data = JsObject.keys data' ->
    JsObject.keys conditions = JsObject.keys conditions' ->
    (query (buildSelectQuery table conditions columns)
       = query (buildSelectQuery table conditions' columns)
     /\ query (buildInsertQuery table data)
       = query (buildInsertQuery table data')
     /\ query (buildUpdateQuery table data conditions)
       = query (buildUpdateQuery table data' conditions')
     /\ query (buildDeleteQuery table conditions)
       = query (buildDeleteQuery table conditions'))
    /\ (buildSelectQuery table conditions columns
          = BuiltQuery (select_text table (JsObject.keys conditions) columns)
                       (JsObject.values conditions)
        /\ buildInsertQuery table data
          = BuiltQuery (insert_text table (JsObject.keys data))
                       (JsObject.values data)
        /\ buildUpdateQuery table data conditions
          = BuiltQuery (update_text table (JsObject.keys data)
                                    (JsObject.keys conditions))
                       (JsObject.values data ++ JsObject.values conditions)
        /\ buildDeleteQuery table conditions
          = BuiltQuery (delete_text table (JsObject.keys conditions))
                       (JsObject.values conditions))
    /\ (length (JsObject.values conditions) = length (JsObject.keys conditions)
        /\ length (JsObject.values data) = length (JsObject.keys data)).
Proof.
  intros V W table columns data conditions data' conditions' Hd Hc.
  split; [|split].
  - unfold buildSelectQuery, buildInsertQuery, buildUpdateQuery,
      buildDeleteQuery. cbn [query]. by rewrite Hd, Hc.
  - split; [|split; [|split]].
    + by rewrite <- buildSelectQuery_text.
    + by rewrite <- buildInsertQuery_text.
    + unfold update_text. rewrite keys_length.
      by rewrite <- buildUpdateQuery_text.
    + by rewrite <- buildDeleteQuery_text.
  - by rewrite !values_length, !keys_length.
Qed.

Lemma query_text_ignores_values_witness :
  query (buildUpdateQuery "t" [("a", 1%Z); ("b", 2%Z)] [("id", 5%Z)])
  = query (buildUpdateQuery "t" [("a", "x"); ("b", "y")] [("id", "z")]).
Proof.
  apply (query_text_ignores_values Z string "t" ["*"]
           [("a", 1%Z); ("b", 2%Z)] [("id", 5%Z)]
           [("a", "x"); ("b", "y")] [("id", "z")]); reflexivity.
Defined.

(** C9: with an empty conditions object both builders still write the
    WHERE keyword: the UPDATE text ends in " WHERE  RETURNING *" and the
    DELETE text is exactly "DELETE FROM t WHERE ", with no bind value. *)
Theorem empty_conditions_keep_where :
  forall (V : Type) (table : string) (data : obj V),
    query (buildUpdateQuery table data [])
    = "UPDATE " +:+ table +:+ " SET "
      +:+ join ", " (numbered 1 (JsObject.keys data)) +:+ " WHERE  RETURNING *"
    /\ ends_with (query (buildUpdateQuery table data [])) " WHERE  RETURNING *"
    /\ values (buildUpdateQuery table data []) = JsObject.values data
    /\ buildDeleteQuery table ([] : obj V)
       = BuiltQuery ("DELETE FROM " +:+ table +:+ " WHERE ") [].
Proof.
  intros V table data.
  assert (Htext : query (buildUpdateQuery table data [])
    = "UPDATE " +:+ table +:+ " SET "
      +:+ join ", " (numbered 1 (JsObject.keys data)) +:+ " WHERE  RETURNING *").
  { by rewrite buildUpdateQuery_text. }
  split; [exact Htext|]. split; [|split].
  - rewrite Htext.
    exists ("UPDATE " +:+ table +:+ " SET "
            +:+ join ", " (numbered 1 (JsObject.keys data))).
    by rewrite !append_assoc.
  - cbn [buildUpdateQuery values JsObject.values fmap list_fmap].
    apply app_nil_r.
  - reflexivity.
Qed.

(** ** Column builders *)

Lemma all_ascii_complete (c : Ascii.ascii) : In c all_ascii.
Proof.
  unfold all_ascii. rewrite <- (Ascii.ascii_nat_embedding c).
  apply in_map, in_seq. pose proof (Ascii.nat_ascii_bounded c). lia.
Qed.

(** Agreement up to letter case, said with [upper_ascii]. *)
Lemma same_letter_upper (a b : Ascii.ascii) :
  same_letter a b = Ascii.eqb (upper_ascii a) (upper_ascii b).
Proof.
  assert (Hall : forallb (fun x => forallb (fun y =>
            Bool.eqb (same_letter x y)
                     (Ascii.eqb (upper_ascii x) (upper_ascii y)))
            all_ascii) all_ascii = true) by (vm_compute; reflexivity).
  rewrite forallb_forall in Hall.
  specialize (Hall a (all_ascii_complete a)). rewrite forallb_forall in Hall.
  specialize (Hall b (all_ascii_complete b)). by apply Bool.eqb_prop in Hall.
Qed.

Lemma upper_ascii_not_lower (c : Ascii.ascii) : is_lower (upper_ascii c) = false.
Proof. by destruct c as [[] [] [] [] [] [] [] []]. Qed.

Lemma upper_ascii_is_ascii (c : Ascii.ascii) :
  is_ascii (upper_ascii c) = is_ascii c.
Proof. by destruct c as [[] [] [] [] [] [] [] []]. Qed.

Lemma upper_ascii_other (c : Ascii.ascii) :
  is_ascii c = false -> upper_ascii c = c.
Proof. by destruct c as [[] [] [] [] [] [] [] []]. Qed.

Lemma ascii_not_continuation (c : Ascii.ascii) :
  is_ascii c = true -> is_continuation c = false.
Proof. by destruct c as [[] [] [] [] [] [] [] []]. Qed.

Lemma ascii_upper_not_lower (s : string) (c : Ascii.ascii) :
  c ∈ chars (ascii_upper s) -> is_lower c = false.
Proof.
  induction s as [|a s IH]; cbn [ascii_upper chars]; intros H.
  - by apply elem_of_nil in H.
  - apply elem_of_cons in H as [->|H]; [apply upper_ascii_not_lower|auto].
Qed.

Lemma eq_ignoring_case_upper (s t : string) :
  eq_ignoring_case s t = String.eqb (ascii_upper s) (ascii_upper t).
Proof.
  revert t. induction s as [|a s IH]; intros [|b t]; try done.
  cbn [eq_ignoring_case ascii_upper String.eqb]. rewrite same_letter_upper.
  rewrite IH. by destruct (Ascii.eqb _ _).
Qed.

Lemma ascii_only_upper (s : string) : ascii_only (ascii_upper s) = ascii_only s.
Proof.
  unfold ascii_only. induction s as [|a s IH]; [done|].
  cbn [ascii_upper chars forallb]. by rewrite upper_ascii_is_ascii, IH.
Qed.

Section CaseFacts.
Context {table : CaseTable}.

(** On a string of ASCII characters [toUpperCase] is the upper-casing of
    the letters a..z, whatever the case table. *)
Lemma toUpperCase_ascii (s : string) :
  ascii_only s = true -> toUpperCase s = ascii_upper s.
Proof.
  unfold toUpperCase, ascii_only.
  induction s as [|a s IH]; [done|].
  cbn [chars forallb upper_go ascii_upper]. intros H.
  apply andb_true_iff in H as [Ha Hs].
  by rewrite (ascii_not_continuation a Ha), Ha, (IH Hs).
Qed.

(** Strings that agree up to letter case are read alike, code point by
    code point. *)
Lemma upper_go_ignoring_case (s t pending : string) :
  eq_ignoring_case s t = true -> upper_go pending s = upper_go pending t.
Proof.
  revert t pending. induction s as [|a s IH]; intros [|b t] pending H; try done.
  cbn [eq_ignoring_case] in H. apply andb_true_iff in H as [Hab Hst].
  rewrite same_letter_upper in Hab. apply Ascii.eqb_eq in Hab.
  cbn [upper_go]. destruct (is_ascii a) eqn:Ha.
  - assert (Hb : is_ascii b = true).
    { by rewrite <- upper_ascii_is_ascii, <- Hab, upper_ascii_is_ascii. }
    rewrite (ascii_not_continuation a Ha), (ascii_not_continuation b Hb), Hb, Hab.
    by rewrite (IH t "" Hst).
  - assert (Hb : is_ascii b = false).
    { by rewrite <- upper_ascii_is_ascii, <- Hab, upper_ascii_is_ascii. }
    rewrite (upper_ascii_other a Ha), (upper_ascii_other b Hb) in Hab. subst b.
    rewrite Ha. destruct (is_continuation a); by rewrite (IH t _ Hst).
Qed.

Lemma toUpperCase_ignoring_case (s t : string) :
  eq_ignoring_case s t = true -> toUpperCase s = toUpperCase t.
Proof. apply upper_go_ignoring_case. Qed.

Lemma eq_ignoring_case_ascii (s t : string) :
  eq_ignoring_case s t = true -> ascii_only s = ascii_only t.
Proof.
  rewrite eq_ignoring_case_upper. intros H. apply String.eqb_eq in H.
  by rewrite <- (ascii_only_upper s), H, ascii_only_upper.
Qed.

Lemma validateColumnType_ascii (t : string) :
  ascii_only t = true -> validateColumnType t = allowed_ignoring_case t.
Proof.
  intros Ht. unfold validateColumnType, allowed_ignoring_case, includes_str.
  rewrite (toUpperCase_ascii t Ht). cbn [existsb validTypes].
  by rewrite !eq_ignoring_case_upper.
Qed.

Lemma allowed_is_ascii (t : string) :
  allowed_ignoring_case t = true -> ascii_only t = true.
Proof.
  unfold allowed_ignoring_case. rewrite existsb_exists.
  intros (T & HT & Heq). rewrite (eq_ignoring_case_ascii t T Heq).
  cbn in HT. by repeat (destruct HT as [<-|HT]; [reflexivity|]).
Qed.

Lemma includes_str_elem (l : list string) (x : string) :
  includes_str l x = true <-> x ∈ l.
Proof.
  unfold includes_str. rewrite existsb_exists. split.
  - intros (y & Hin & Heq). apply String.eqb_eq in Heq as ->.
    by apply list_elem_of_In.
  - intros Hin. exists x. split; [by apply list_elem_of_In|apply String.eqb_refl].
Qed.

Lemma validTypes_upper (T : string) (c : Ascii.ascii) :
  T ∈ validTypes -> c ∈ chars T -> is_lower c = false.
Proof.
  intros HT Hc. apply list_elem_of_In in HT. cbn in HT.
  repeat (destruct HT as [<-|HT];
          [cbn in Hc; repeat (apply elem_of_cons in Hc as [->|Hc]; [reflexivity|]);
           by apply elem_of_nil in Hc|]).
  done.
Qed.

End CaseFacts.

(** C6, as the code has it: [validateColumnType] is true exactly when
    the upper-case form of the type is one of the allowed names. For a
    type of ASCII characters that is membership up to letter case
    ('varchar' yes, 'money' no), and every type that equals an allowed
    name up to letter case is accepted; but types with a letter that
    [toUpperCase] turns into ASCII (dotless i and long s, for instance)
    pass too.
    [buildAddColumnQuery] throws 'Invalid column type' exactly when the
    type is not accepted, and otherwise returns the ADD COLUMN statement
    with the type in upper case, an allowed name. *)
Theorem column_type_validation {table : CaseTable} :
  (forall columnType : string,
     validateColumnType columnType = true <-> toUpperCase columnType ∈ validTypes)
  /\ (forall columnType : string,
        ascii_only columnType = true ->
        validateColumnType columnType = allowed_ignoring_case columnType)
  /\ (forall columnType : string,
        allowed_ignoring_case columnType = true ->
        validateColumnType columnType = true)
  /\ validateColumnType "varchar" = true
  /\ validateColumnType "money" = false
  /\ validateColumnType ("t" +:+ dotless_i +:+ "mestamp") = true
  /\ validateColumnType ("time" +:+ long_s +:+ "tamp") = true
  /\ (forall columnName columnType message : string,
        buildAddColumnQuery columnName columnType = inl message
        <-> validateColumnType columnType = false
            /\ message = "Invalid column type")
  /\ (forall columnName columnType statement : string,
        buildAddColumnQuery columnName columnType = inr statement
        <-> validateColumnType columnType = true
            /\ statement = "ALTER TABLE property_data ADD COLUMN " +:+ columnName
                           +:+ " " +:+ toUpperCase columnType +:+ ";")
  /\ (forall (columnType : string) (c : Ascii.ascii),
        validateColumnType columnType = true ->
        c ∈ chars (toUpperCase columnType) -> is_lower c = false).
Proof.
  split; [|split; [|split; [|split; [|split; [|split; [|split; [|split; [|split]]]]]]]].
  - intros t. apply includes_str_elem.
  - apply validateColumnType_ascii.
  - intros t Ht. by rewrite (validateColumnType_ascii t (allowed_is_ascii t Ht)).
  - reflexivity.
  - reflexivity.
  - reflexivity.
  - reflexivity.
  - intros name t message. unfold buildAddColumnQuery.
    destruct (validateColumnType t); cbn; split.
    + discriminate.
    + by intros [? _].
    + by intros [= <-].
    + by intros [_ ->].
  - intros name t statement. unfold buildAddColumnQuery.
    destruct (validateColumnType t); cbn; split.
    + by intros [= <-].
    + by intros [_ ->].
    + discriminate.
    + by intros [? _].
  - intros t c Hvalid. apply validTypes_upper. by apply includes_str_elem.
Qed.

(** C6, as stated, fails: 'tımestamp', written with the dotless i
    (U+0131), is accepted although it equals no allowed name up to letter
    case. *)
Lemma column_type_beyond_letter_case :
  "tımestamp" = "t" +:+ dotless_i +:+ "mestamp"
  /\ validateColumnType (table := keep_others) "tımestamp" = true
  /\ allowed_ignoring_case "tımestamp" = false.
Proof. by vm_compute. Qed.

(** ** Objects: copying selected properties *)

(** Assignment keeps the enumeration order of [Object.keys]: array-index
    keys first and ascending, then the other keys as they came; assigning
    to [__proto__] on a fresh object adds nothing. *)
Example set_enumeration_order :
  JsObject.set (JsObject.set (JsObject.set [] "b" 1) "10" 2) "9" 3
  = [("9", 3); ("10", 2); ("b", 1)]
  /\ JsObject.set (JsObject.set [("a", 1)] "a" 4) "__proto__" 5 = [("a", 4)].
Proof. split; reflexivity. Qed.

Section ObjectFacts.
Context {V : Type}.
Implicit Types (o : obj V) (k : string) (v : V).

Lemma has_false o k : JsObject.has o k = false <-> k ∉ JsObject.keys o.
Proof.
  unfold JsObject.has. induction (JsObject.keys o) as [|k' ks IH]; cbn.
  - split; [intros _; apply not_elem_of_nil|done].
  - rewrite orb_false_iff, IH, not_elem_of_cons, String.eqb_neq. tauto.
Qed.

Lemma get_elem o k v :
  NoDup (JsObject.keys o) -> (k, v) ∈ o -> JsObject.get o k = Some v.
Proof.
  induction o as [|[k' v'] o IH]; intros Hnd Hin.
  - by apply elem_of_nil in Hin.
  - cbn in Hnd. apply NoDup_cons in Hnd as [Hk' Hnd].
    apply elem_of_cons in Hin as [[= -> ->]|Hin]; cbn.
    + by rewrite String.eqb_refl.
    + destruct (String.eqb_spec k' k) as [->|_]; [|by apply IH].
      exfalso. apply Hk'. apply (list_elem_of_fmap_2 fst) in Hin. exact Hin.
Qed.

Lemma insert_index_last o n k v :
  JsObject.array_index k = Some n ->
  Forall (fun k' => JsObject.key_before k' k) (JsObject.keys o) ->
  JsObject.insert_index o n k v = o ++ [(k, v)].
Proof.
  intros Hk. induction o as [|[k' v'] o IH]; intros Hall; [done|].
  cbn in Hall. apply Forall_cons in Hall as [Hb Hall].
  cbn [JsObject.insert_index]. unfold JsObject.key_before in Hb.
  rewrite Hk in Hb. destruct (JsObject.array_index k') as [m|]; [|done].
  apply N.ltb_lt in Hb. rewrite Hb. cbn. by rewrite IH.
Qed.

Lemma set_fresh_last o k v :
  k ∉ JsObject.keys o ->
  k <> "__proto__" ->
  Forall (fun k' => JsObject.key_before k' k) (JsObject.keys o) ->
  JsObject.set o k v = o ++ [(k, v)].
Proof.
  intros Hk Hproto Hall. unfold JsObject.set.
  apply has_false in Hk. rewrite Hk.
  apply String.eqb_neq in Hproto. rewrite Hproto.
  destruct (JsObject.array_index k) as [n|] eqn:E; [|done].
  by apply insert_index_last.
Qed.

Lemma keys_filter_elem (P : string * V -> bool) o k :
  k ∈ JsObject.keys (List.filter P o) -> k ∈ JsObject.keys o.
Proof.
  unfold JsObject.keys. rewrite !list_elem_of_fmap.
  intros [kv [-> Hin]]. exists kv. split; [done|].
  apply list_elem_of_In, filter_In in Hin as [Hin _].
  by apply list_elem_of_In.
Qed.


Lemma set_proto_fresh o v :
  "__proto__" ∉ JsObject.keys o -> JsObject.set o "__proto__" v = o.
Proof. intros H. unfold JsObject.set. apply has_false in H. by rewrite H. Qed.

(** The same loop on any object: a selected key is copied unless it is
    [__proto__]. *)
Lemma forEach_copy_own_prefix (P : string -> bool) (read : string -> V)
    (full : obj V) :
  JsObject.enumerated full ->
  (forall k v, (k, v) ∈ full -> read k = v) ->
  forall pre suf : obj V,
    full = pre ++ suf ->
    forEach (JsObject.keys pre)
      (fun key acc => if P key then JsObject.set acc key (read key) else acc) []
    = List.filter (fun kv => P kv.1 && negb (String.eqb kv.1 "__proto__")) pre.
Proof.
  intros (Hnd & Hsort) Hread pre.
  induction pre as [|[k v] pre IH] using rev_ind; intros suf Hfull; [done|].
  unfold forEach, JsObject.keys in *. rewrite fmap_app.
  change (fst <$> [(k, v)]) with [k]. rewrite foldl_snoc.
  rewrite (IH ([(k, v)] ++ suf)) by (by rewrite Hfull, <- app_assoc).
  rewrite List.filter_app. cbn [List.filter fst].
  destruct (P k); [|by rewrite app_nil_r]. cbn [andb].
  assert (Hkeys : full.*1 = pre.*1 ++ k :: suf.*1).
  { by rewrite Hfull, !fmap_app, <- app_assoc. }
  assert (Hfresh : k ∉ JsObject.keys
            (List.filter (fun kv => P kv.1 && negb (String.eqb kv.1 "__proto__"))
                         pre)).
  { intros Hin. apply keys_filter_elem in Hin.
    unfold JsObject.keys in Hnd. rewrite Hkeys in Hnd.
    apply NoDup_app in Hnd as (_ & Hdis & _).
    apply (Hdis k Hin). left. }
  destruct (String.eqb_spec k "__proto__") as [->|Hproto]; cbn [negb].
  - rewrite app_nil_r. by apply set_proto_fresh.
  - rewrite (Hread k v) by (rewrite Hfull; set_solver).
    apply set_fresh_last; [exact Hfresh|exact Hproto|].
    apply Forall_forall. intros k' Hin. apply keys_filter_elem in Hin.
    unfold JsObject.keys in Hsort. rewrite Hkeys in Hsort.
    eapply StronglySorted_app_1_elem_of; [exact Hsort|exact Hin|left].
Qed.

End ObjectFacts.

Lemma forEach_copy_own (tableColumns : list value) (o : obj value) :
  JsObject.enumerated o ->
  forEach (JsObject.keys o)
    (fun key acc =>
       if includes tableColumns key then JsObject.set acc key (prop o key) else acc)
    []
  = copied tableColumns o.
Proof.
  intros Henum.
  apply (forEach_copy_own_prefix (includes tableColumns) (prop o) o Henum)
    with (suf := []).
  - intros k v Hin. unfold prop. by rewrite (get_elem o k v (proj1 Henum) Hin).
  - by rewrite app_nil_r.
Qed.

Lemma copied_elem (tableColumns : list value) (o : obj value) (k : string)
    (v : value) :
  (k, v) ∈ copied tableColumns o
  <-> (k, v) ∈ o /\ includes tableColumns k = true /\ k <> "__proto__".
Proof.
  unfold copied. rewrite !list_elem_of_In, filter_In. cbn [fst].
  rewrite andb_true_iff, negb_true_iff, String.eqb_neq. tauto.
Qed.


Lemma forEach_copy_none (P : string -> bool) (o : obj value) :
  (forall k, k ∈ JsObject.keys o -> P k = false) ->
  forEach (JsObject.keys o)
    (fun key acc => if P key then JsObject.set acc key (prop o key) else acc) []
  = [].
Proof.
  unfold forEach. generalize (prop o). intros read.
  induction (JsObject.keys o) as [|k ks IH]; intros HP; [done|].
  cbn. rewrite (HP k) by set_solver. apply IH. intros k' Hk'. apply HP. set_solver.
Qed.

(** ** Repository *)

Section RepositoryFacts.
Context {DB : Type} (exec : executor DB).
Implicit Types (w : world DB) (columnRows : list row).

(** The world after the column lookup of a repository operation. *)
Lemma getTableColumnsNames_run w :
  PropertyModel.getTableColumnsNames exec w
  = (match (exec (db w) PropertyModel.columnNamesQuery []).1 with
     | inl message => inl message
     | inr rows => inr (map (fun r => prop r "column_name") rows)
     end,
     World (exec (db w) PropertyModel.columnNamesQuery []).2
           (calls w ++ [(PropertyModel.columnNamesQuery, [])]) (console w)).
Proof.
  unfold PropertyModel.getTableColumnsNames, bind, pool_query, ret.
  by destruct (exec (db w) PropertyModel.columnNamesQuery []) as [[e|rows] d].
Qed.

Lemma pool_query_run w sql vals :
  pool_query exec sql vals w
  = ((exec (db w) sql vals).1,
     World (exec (db w) sql vals).2 (calls w ++ [(sql, vals)]) (console w)).
Proof. unfold pool_query. by destruct (exec (db w) sql vals). Qed.

Lemma insertProperty_run w (newProperty : obj value) columnRows d1 :
  exec (db w) PropertyModel.columnNamesQuery [] = (inr columnRows, d1) ->
  let tableColumns := map (fun r => prop r "column_name") columnRows in
  let propertyData :=
    forEach (JsObject.keys newProperty) (fun key propertyData =>
      if includes tableColumns key
      then JsObject.set propertyData key (prop newProperty key)
      else propertyData) [] in
  let q := buildInsertQuery "property_data" propertyData in
  PropertyModel.insertProperty exec newProperty w
  = if (length (JsObject.keys propertyData) =? 0)%nat
    then (inl "No valid columns found to insert",
          World d1 (calls w ++ [(PropertyModel.columnNamesQuery, [])]) (console w))
    else (first_row (exec d1 (query q) (values q)).1,
          World (exec d1 (query q) (values q)).2
                (calls w ++ [(PropertyModel.columnNamesQuery, []);
                             (query q, values q)])
                (console w)).
Proof.
  intros Hlookup tableColumns propertyData q.
  unfold PropertyModel.insertProperty, bind.
  rewrite getTableColumnsNames_run, Hlookup. cbn [fst snd].
  fold tableColumns. fold propertyData.
  destruct (length (JsObject.keys propertyData) =? 0)%nat; [done|].
  fold q. rewrite pool_query_run. cbn [db calls console].
  rewrite <- app_assoc. cbn [app].
  by destruct (exec d1 (query q) (values q)) as [[e|rows] d2].
Qed.

Lemma updateProperty_run w (id : value) (updates : obj value) columnRows d1 :
  exec (db w) PropertyModel.columnNamesQuery [] = (inr columnRows, d1) ->
  let tableColumns := map (fun r => prop r "column_name") columnRows in
  let updateData :=
    forEach (JsObject.keys updates) (fun key updateData =>
      if includes tableColumns key
      then JsObject.set updateData key (prop updates key)
      else updateData) [] in
  let q := buildUpdateQuery "property_data" updateData [("id", id)] in
  PropertyModel.updateProperty exec id updates w
  = if (length (JsObject.keys updateData) =? 0)%nat
    then (inl "No valid columns found to update",
          World d1 (calls w ++ [(PropertyModel.columnNamesQuery, [])]) (console w))
    else (first_row (exec d1 (query q) (values q)).1,
          World (exec d1 (query q) (values q)).2
                (calls w ++ [(PropertyModel.columnNamesQuery, []);
                             (query q, values q)])
                (console w)).
Proof.
  intros Hlookup tableColumns updateData q.
  unfold PropertyModel.updateProperty, bind.
  rewrite getTableColumnsNames_run, Hlookup. cbn [fst snd].
  fold tableColumns. fold updateData.
  destruct (length (JsObject.keys updateData) =? 0)%nat; [done|].
  fold q. rewrite pool_query_run. cbn [db calls console].
  rewrite <- app_assoc. cbn [app].
  by destruct (exec d1 (query q) (values q)) as [[e|rows] d2].
Qed.

Lemma keys_nonempty {V} (o : obj V) :
  o <> [] -> (length (JsObject.keys o) =? 0)%nat = false.
Proof. by destruct o. Qed.

End RepositoryFacts.


Ltac solve_enumerated :=
  split; [compute_done|repeat constructor; vm_compute; auto].




(** C4, as the code has it: when no key of the input is a current table
    column (the empty object included), [insertProperty] fails with 'No
    valid columns found to insert' and [updateProperty] with 'No valid
    columns found to update'; the only database call of the operation is
    the column lookup, and no INSERT or UPDATE is sent. *)
Theorem no_valid_columns_rejected :
  forall (DB : Type) (exec : executor DB) (w : world DB) (id : value)
         (input : obj value) (columnRows : list row) (d1 : DB),
    exec (db w) PropertyModel.columnNamesQuery [] = (inr columnRows, d1) ->
    let tableColumns := map (fun r => prop r "column_name") columnRows in
    (forall k, k ∈ JsObject.keys input -> includes tableColumns k = false) ->
    PropertyModel.insertProperty exec input w
    = (inl "No valid columns found to insert",
       World d1 (calls w ++ [(PropertyModel.columnNamesQuery, [])]) (console w))
    /\ PropertyModel.updateProperty exec id input w
       = (inl "No valid columns found to update",
          World d1 (calls w ++ [(PropertyModel.columnNamesQuery, [])]) (console w)).
Proof.
  intros DB exec w id input columnRows d1 Hlookup tableColumns Hnone. split.
  - rewrite (insertProperty_run exec w input columnRows d1 Hlookup).
    cbv zeta. fold tableColumns. by rewrite (forEach_copy_none _ _ Hnone).
  - rewrite (updateProperty_run exec w id input columnRows d1 Hlookup).
    cbv zeta. fold tableColumns. by rewrite (forEach_copy_none _ _ Hnone).
Qed.

Lemma no_valid_columns_rejected_witness :
  PropertyModel.insertProperty Catalog.exec [("bogus", VStr "Y")]
    (World (Some Catalog.createdColumns) [] [])
  = (inl "No valid columns found to insert",
     World (Some Catalog.createdColumns)
           [(PropertyModel.columnNamesQuery, [])] [])
  /\ PropertyModel.updateProperty Catalog.exec (VStr "7") []
       (World (Some Catalog.createdColumns) [] [])
     = (inl "No valid columns found to update",
        World (Some Catalog.createdColumns)
              [(PropertyModel.columnNamesQuery, [])] []).
Proof.
  split.
  - refine (proj1 (no_valid_columns_rejected _ Catalog.exec
      (World (Some Catalog.createdColumns) [] []) (VStr "7")
      [("bogus", VStr "Y")]
      (map (fun c => [("column_name", VStr c)]) Catalog.createdColumns)
      (Some Catalog.createdColumns) _ _)).
    + reflexivity.
    + intros k Hk. apply list_elem_of_singleton in Hk as ->. reflexivity.
  - refine (proj2 (no_valid_columns_rejected _ Catalog.exec
      (World (Some Catalog.createdColumns) [] []) (VStr "7") []
      (map (fun c => [("column_name", VStr c)]) Catalog.createdColumns)
      (Some Catalog.createdColumns) _ _)).
    + reflexivity.
    + intros k Hk. by apply elem_of_nil in Hk.
Defined.

(** C4, as stated, fails: an insert whose only key is not a column does
    reach the database once, for the column lookup. *)
Lemma no_valid_columns_one_call :
  let w := World (Some Catalog.createdColumns) [] [] in
  let r := PropertyModel.insertProperty Catalog.exec [("bogus", VStr "Y")] w in
  r.1 = inl "No valid columns found to insert"
  /\ issued w r.2 = [(PropertyModel.columnNamesQuery, [])]
  /\ issued w r.2 <> [].
Proof. by vm_compute. Qed.

(** C5: when the name is already among the current columns, [addColumn]
    fails with the 'already exists' error; its only database call is the
    column lookup, so no DDL is sent and the database stays as the lookup
    left it. Only when the name is absent is the ADD COLUMN builder
    consulted, and its statement executed if the type is valid. *)
Theorem addColumn_rejects_existing {table : CaseTable} :
  forall (DB : Type) (exec : executor DB) (w : world DB)
         (columnName columnType : string) (columnRows : list row) (d1 : DB),
    exec (db w) PropertyModel.columnNamesQuery [] = (inr columnRows, d1) ->
    let existingColumns := map (fun r => prop r "column_name") columnRows in
    let r := PropertyModel.addColumn exec columnName columnType w in
    (includes existingColumns columnName = true ->
       r = (inl ("Column '" +:+ columnName
                 +:+ "' already exists in the property_data table."),
            World d1 (calls w ++ [(PropertyModel.columnNamesQuery, [])])
                  (console w))
       /\ Forall (fun c => is_ddl c.1 = false) (issued w r.2)
       /\ (d1 = db w -> db r.2 = db w))
    /\ (includes existingColumns columnName = false ->
          match buildAddColumnQuery columnName columnType with
          | inl message =>
              r = (inl message,
                   World d1 (calls w ++ [(PropertyModel.columnNamesQuery, [])])
                         (console w))
          | inr ddl =>
              r = (no_value (exec d1 ddl []).1,
                   World (exec d1 ddl []).2
                         (calls w ++ [(PropertyModel.columnNamesQuery, []);
                                      (ddl, [])])
                         (console w))
          end)
    /\ ((exists c, c ∈ issued w r.2 /\ is_ddl c.1 = true) ->
          includes existingColumns columnName = false).
Proof.
  intros DB exec w columnName columnType columnRows d1 Hlookup
    existingColumns r.
  assert (Hr : r = if includes existingColumns columnName
    then (inl ("Column '" +:+ columnName
               +:+ "' already exists in the property_data table."),
          World d1 (calls w ++ [(PropertyModel.columnNamesQuery, [])])
                (console w))
    else match buildAddColumnQuery columnName columnType with
         | inl message =>
             (inl message,
              World d1 (calls w ++ [(PropertyModel.columnNamesQuery, [])])
                    (console w))
         | inr ddl =>
             (no_value (exec d1 ddl []).1,
              World (exec d1 ddl []).2
                    (calls w ++ [(PropertyModel.columnNamesQuery, []);
                                 (ddl, [])])
                    (console w))
         end).
  { unfold r, PropertyModel.addColumn, bind.
    rewrite getTableColumnsNames_run, Hlookup. cbn [fst snd].
    fold existingColumns. destruct (includes existingColumns columnName); [done|].
    destruct (buildAddColumnQuery columnName columnType) as [message|ddl]; [done|].
    rewrite pool_query_run. cbn [db calls console].
    rewrite <- app_assoc. cbn [app].
    by destruct (exec d1 ddl []) as [[e|rows] d2]. }
  assert (Hexists : includes existingColumns columnName = true ->
            issued w r.2 = [(PropertyModel.columnNamesQuery, [])]).
  { intros Hin. rewrite Hr, Hin. unfold issued. cbn [snd calls].
    by rewrite drop_app_length. }
  split; [|split].
  - intros Hin. split; [by rewrite Hr, Hin|]. split.
    + rewrite (Hexists Hin). by repeat constructor.
    + intros Hd. by rewrite Hr, Hin.
  - intros Hin. rewrite Hr, Hin.
    by destruct (buildAddColumnQuery columnName columnType).
  - intros (c & Hc & Hddl).
    destruct (includes existingColumns columnName) eqn:Hin; [|done].
    rewrite (Hexists eq_refl) in Hc.
    apply list_elem_of_singleton in Hc as ->. by vm_compute in Hddl.
Qed.

Lemma addColumn_rejects_existing_witness :
  PropertyModel.addColumn (table := keep_others) Catalog.exec "status" "VARCHAR"
    (World (Some Catalog.createdColumns) [] [])
  = (inl "Column 'status' already exists in the property_data table.",
     World (Some Catalog.createdColumns)
           [(PropertyModel.columnNamesQuery, [])] []).
Proof.
  refine (proj1 (proj1 (addColumn_rejects_existing _ Catalog.exec
    (World (Some Catalog.createdColumns) [] []) "status" "VARCHAR"
    (map (fun c => [("column_name", VStr c)]) Catalog.createdColumns)
    (Some Catalog.createdColumns) _) _)); reflexivity.
Defined.

(** C8, as the code has it: the update whitelist is the current column
    set. Whenever that set contains 'id' and the updates object has the
    key 'id', the key survives the filter: the UPDATE that is sent
    assigns 'id' in its SET clause, bound to the value the caller
    supplied. *)
Theorem updateProperty_can_overwrite_id :
  forall (DB : Type) (exec : executor DB) (w : world DB) (id : value)
         (updates : obj value) (columnRows : list row) (d1 : DB),
    JsObject.enumerated updates ->
    exec (db w) PropertyModel.columnNamesQuery [] = (inr columnRows, d1) ->
    let tableColumns := map (fun r => prop r "column_name") columnRows in
    includes tableColumns "id" = true ->
    "id" ∈ JsObject.keys updates ->
    let updateData := copied tableColumns updates in
    let q := buildUpdateQuery "property_data" updateData [("id", id)] in
    (exists i, JsObject.keys updateData !! i = Some "id"
               /\ numbered 1 (JsObject.keys updateData) !! i
                  = Some ("id = $" +:+ show_nat (i + 1))
               /\ values q !! i = Some (prop updates "id"))
    /\ query q
       = "UPDATE property_data SET "
         +:+ join ", " (numbered 1 (JsObject.keys updateData))
         +:+ " WHERE id = $" +:+ show_nat (length updateData + 1)
         +:+ " RETURNING *"
    /\ PropertyModel.updateProperty exec id updates w
       = (first_row (exec d1 (query q) (values q)).1,
          World (exec d1 (query q) (values q)).2
                (calls w ++ [(PropertyModel.columnNamesQuery, []);
                             (query q, values q)])
                (console w)).
Proof.
  intros DB exec w id updates columnRows d1 Henum Hlookup tableColumns Hcol Hkey
    updateData q.
  assert (Hin : ("id", prop updates "id") ∈ updateData).
  { unfold JsObject.keys in Hkey.
    apply list_elem_of_fmap in Hkey as ([k v] & Hk & Hkv). cbn in Hk. subst k.
    unfold prop. rewrite (get_elem updates "id" v (proj1 Henum) Hkv). cbn.
    unfold updateData. apply copied_elem. by repeat split. }
  split; [|split].
  - apply list_elem_of_lookup in Hin as [i Hi]. exists i.
    destruct (update_set_binding "property_data" updateData [("id", id)]
                i "id" (prop updates "id") Hi) as [Hn Hv].
    split; [|split; [exact Hn|exact Hv]].
    by apply (keys_lookup _ _ _ (prop updates "id")).
  - unfold q. rewrite buildUpdateQuery_text. cbn [JsObject.keys fmap list_fmap fst numbered join].
    by rewrite !append_assoc.
  - rewrite (updateProperty_run exec w id updates columnRows d1 Hlookup).
    cbv zeta. fold tableColumns. rewrite (forEach_copy_own _ _ Henum).
    fold updateData. rewrite keys_nonempty; [done|].
    intros Hnil. rewrite Hnil in Hin. by apply elem_of_nil in Hin.
Qed.

Lemma updateProperty_can_overwrite_id_witness :
  PropertyModel.updateProperty queryStub (VStr "1")
    [("id", VNum 999); ("status", VStr "sold")]
    (World [inr [[("column_name", VStr "id")]; [("column_name", VStr "status")]];
            inr [[("id", VNum 999); ("status", VStr "sold")]]] [] [])
  = (inr (Some [("id", VNum 999); ("status", VStr "sold")]),
     World []
       [(PropertyModel.columnNamesQuery, []);
        ("UPDATE property_data SET id = $1, status = $2 WHERE id = $3 RETURNING *",
         [VNum 999; VStr "sold"; VStr "1"])]
       []).
Proof.
  refine (proj2 (proj2 (updateProperty_can_overwrite_id _ queryStub
    (World [inr [[("column_name", VStr "id")]; [("column_name", VStr "status")]];
            inr [[("id", VNum 999); ("status", VStr "sold")]]] [] [])
    (VStr "1") [("id", VNum 999); ("status", VStr "sold")]
    [[("column_name", VStr "id")]; [("column_name", VStr "status")]]
    [inr [[("id", VNum 999); ("status", VStr "sold")]]] _ _ _ _))).
  - solve_enumerated.
  - reflexivity.
  - reflexivity.
  - left.
Defined.

(** C8, as stated, fails: the table does not always contain 'id'. On a
    table that has lost the column (the baseline columns are all there),
    reconciliation at the next start leaves it missing, the column
    listing has no 'id', and an update that carries the key 'id' has it
    filtered out: the UPDATE that is sent assigns 'status' only. *)
Lemma updateProperty_filters_id_without_column :
  let st1 := db (Catalog.startup (Some baseline)).2 in
  let updates := [("id", VNum 999); ("status", VStr "sold")] in
  let r := PropertyModel.updateProperty Catalog.exec (VStr "1") updates
             (World st1 [] []) in
  "id" ∈ JsObject.keys updates
  /\ (PropertyModel.getTableColumnsNames Catalog.exec (World st1 [] [])).1
     = inr (map VStr baseline)
  /\ includes (map VStr baseline) "id" = false
  /\ calls r.2
     = [(PropertyModel.columnNamesQuery, []);
        ("UPDATE property_data SET status = $1 WHERE id = $2 RETURNING *",
         [VStr "sold"; VStr "1"])].
Proof. split; [by left|by vm_compute]. Qed.

(** ** Handlers *)

Section HandlerFacts.
Context {DB : Type} (exec : executor DB).

(** A handler of the common shape: answer [ok a] on success, 500 with the
    error message otherwise. *)
Lemma handler_run {A : Type} (m : M DB A) (ok : A -> response) (w : world DB) :
  try_catch (bind m (fun a => ret (ok a)))
            (fun message => ret (Response 500 (ErrorMessage message))) w
  = (inr (match (m w).1 with
          | inl message => Response 500 (ErrorMessage message)
          | inr a => ok a
          end), (m w).2).
Proof. unfold try_catch, bind, ret. by destruct (m w) as [[e|a] w']. Qed.


Lemma getPropertyById_run (id : string) (w : world DB) :
  PropertyController.getPropertyById exec id w
  = (inr (match (PropertyModel.fetchPropertyById exec (VStr id) w).1 with
          | inl message => Response 500 (ErrorMessage message)
          | inr None => Response 404 (Message "Property not found")
          | inr (Some property) => Response 200 (Row (Some property))
          end),
     (PropertyModel.fetchPropertyById exec (VStr id) w).2).
Proof.
  unfold PropertyController.getPropertyById, try_catch, bind, ret.
  by destruct (PropertyModel.fetchPropertyById exec (VStr id) w)
    as [[e|[property|]] w'].
Qed.

End HandlerFacts.



(** ** Schema reconciliation against the catalog *)

Lemma classify_tableCheck :
  Catalog.classify CheckSchema.tableCheckQuery = Catalog.TableCheck.
Proof. by vm_compute. Qed.

Lemma classify_createTable :
  Catalog.classify CheckSchema.createTableQuery = Catalog.CreateTable.
Proof. by vm_compute. Qed.

Lemma classify_columnNames :
  Catalog.classify CheckSchema.columnNamesQuery = Catalog.ColumnNames.
Proof. by vm_compute. Qed.

Lemma classify_addColumn :
  Forall (fun c => Catalog.classify (CheckSchema.addColumnQuery c)
                   = Catalog.AddColumn (CheckSchema.column_name c))
         CheckSchema.requiredColumns.
Proof. repeat constructor. Qed.

(** The text test [is_ddl] recognises what the reconciler and the column
    builder send to change the table, and neither of the two lookups. *)
Lemma is_ddl_recognises {table : CaseTable} :
  is_ddl CheckSchema.createTableQuery = true
  /\ Forall (fun c => is_ddl (CheckSchema.addColumnQuery c) = true)
            CheckSchema.requiredColumns
  /\ buildAddColumnQuery "garage" "boolean"
     = inr "ALTER TABLE property_data ADD COLUMN garage BOOLEAN;"
  /\ is_ddl "ALTER TABLE property_data ADD COLUMN garage BOOLEAN;" = true
  /\ is_ddl CheckSchema.tableCheckQuery = false
  /\ is_ddl CheckSchema.columnNamesQuery = false.
Proof. repeat split; repeat constructor. Qed.

Lemma baseline_NoDup : NoDup baseline.
Proof. compute_done. Qed.

Lemma includes_VStr (cols : list string) (key : string) :
  includes (map VStr cols) key = includes_str cols key.
Proof.
  unfold includes, includes_str. induction cols as [|c cols IH]; [done|].
  cbn. by rewrite IH, (String.eqb_sym c key).
Qed.

Lemma includes_str_true (cols : list string) (key : string) :
  includes_str cols key = true <-> key ∈ cols.
Proof.
  unfold includes_str. rewrite existsb_exists. split.
  - intros (x & Hin & Heq). apply String.eqb_eq in Heq as ->.
    by apply list_elem_of_In.
  - intros Hin. exists key. split; [by apply list_elem_of_In|apply String.eqb_refl].
Qed.

Lemma includes_str_app (cols more : list string) (key : string) :
  includes_str (cols ++ more) key = includes_str cols key || includes_str more key.
Proof. unfold includes_str. apply existsb_app. Qed.

Lemma column_rows_names (cols : list string) :
  map (fun r => prop r "column_name")
      (map (fun c => [("column_name", VStr c)]) cols)
  = map VStr cols.
Proof. induction cols as [|c cols IH]; [done|]. cbn. by rewrite IH. Qed.

(** The loop of [ensureColumns] over a part [l] of the baseline, the
    table having the columns [cur] when it starts: each column of [l]
    that was missing from the listing [cols] is added, in order. *)
Lemma ensureColumns_loop (cols : list string) (l : list CheckSchema.column) :
  Forall (fun c => Catalog.classify (CheckSchema.addColumnQuery c)
                   = Catalog.AddColumn (CheckSchema.column_name c)) l ->
  NoDup (map CheckSchema.column_name l) ->
  forall (cur : list string) (sent : list call) (out : list console_line),
    (forall c, c ∈ l -> includes_str cols (CheckSchema.column_name c) = false ->
               includes_str cur (CheckSchema.column_name c) = false) ->
    let missing :=
      List.filter (fun c => negb (includes_str cols (CheckSchema.column_name c))) l in
    CheckSchema.for_of l (fun column =>
        if negb (includes (map VStr cols) (CheckSchema.column_name column))
        then CheckSchema.addColumn Catalog.exec column
        else ret tt)
      (World (Some cur) sent out)
    = (inr tt,
       World (Some (cur ++ map CheckSchema.column_name missing))
             (sent ++ map (fun c => (CheckSchema.addColumnQuery c, [])) missing)
             (out ++ map (fun c => ConsoleLog ("Column '" +:+ CheckSchema.column_name c
                                                +:+ "' added successfully."))
                         missing)).
Proof.
  induction l as [|c l IH]; intros Hcls Hnd cur sent out Hfresh missing.
  - subst missing. cbn. by rewrite !app_nil_r.
  - apply Forall_cons in Hcls as [Hc Hcls].
    cbn in Hnd. apply NoDup_cons in Hnd as [Hcl Hnd].
    subst missing. cbn [CheckSchema.for_of List.filter].
    unfold bind at 1. rewrite includes_VStr.
    destruct (includes_str cols (CheckSchema.column_name c)) eqn:Hin; cbn [negb].
    + unfold ret at 1. apply IH; [done|done|].
      intros c' Hc'. apply Hfresh. by right.
    + assert (Hstep : CheckSchema.addColumn Catalog.exec c (World (Some cur) sent out)
        = (inr tt,
           World (Some (cur ++ [CheckSchema.column_name c]))
                 (sent ++ [(CheckSchema.addColumnQuery c, [])])
                 (out ++ [ConsoleLog ("Column '" +:+ CheckSchema.column_name c
                                      +:+ "' added successfully.")]))).
      { unfold CheckSchema.addColumn, try_catch, bind, pool_query, Catalog.exec.
        cbn [db calls console]. rewrite Hc.
        by rewrite (Hfresh c (list_elem_of_here _ _) Hin). }
      rewrite Hstep. cbn [map].
      rewrite (IH Hcls Hnd (cur ++ [CheckSchema.column_name c])).
      * by rewrite <- !app_assoc.
      * intros c' Hc' Hmiss. rewrite includes_str_app, (Hfresh c') by (done || by right).
        cbn. rewrite orb_false_r. apply String.eqb_neq. intros Heq.
        apply Hcl. rewrite <- Heq. by apply (list_elem_of_fmap_2 CheckSchema.column_name).
Qed.

Lemma startup_absent :
  Catalog.startup None
  = (inr tt,
     World (Some Catalog.createdColumns)
           [(CheckSchema.tableCheckQuery, []);
            (CheckSchema.createTableQuery, []);
            (CheckSchema.columnNamesQuery, [])]
           [ConsoleLog "Table property_data does not exist. Creating table...";
            ConsoleLog "Table property_data created successfully."]).
Proof. by vm_compute. Qed.

Lemma startup_existing (cols : list string) :
  Catalog.startup (Some cols)
  = (inr tt,
     World (Some (cols ++ map CheckSchema.column_name (missingColumns cols)))
           ([(CheckSchema.tableCheckQuery, []); (CheckSchema.columnNamesQuery, [])]
            ++ map (fun c => (CheckSchema.addColumnQuery c, [])) (missingColumns cols))
           ([ConsoleLog "Table property_data already exists."]
            ++ map (fun c => ConsoleLog ("Column '" +:+ CheckSchema.column_name c
                                         +:+ "' added successfully."))
                   (missingColumns cols))).
Proof.
  unfold Catalog.startup, CheckSchema.ensureTableSchema, try_catch.
  unfold bind at 1. unfold bind at 1. unfold bind at 1.
  unfold pool_query at 1. unfold Catalog.exec at 1. rewrite classify_tableCheck.
  cbn [db calls console head ret app]. 
  change (truthy (prop [("exists", VBool true)] "exists")) with true.
  cbn [negb]. unfold console_log at 1. cbn [db calls console app].
  unfold CheckSchema.ensureColumns, CheckSchema.getTableColumns.
  unfold bind at 1. unfold bind at 1.
  unfold pool_query at 1. unfold Catalog.exec at 1. rewrite classify_columnNames.
  cbn [db calls console app default ret]. rewrite column_rows_names.
  rewrite (ensureColumns_loop cols CheckSchema.requiredColumns
             classify_addColumn baseline_NoDup cols); [done|auto].
Qed.

Lemma missingColumns_required (cols : list string) (c : CheckSchema.column) :
  c ∈ missingColumns cols -> c ∈ CheckSchema.requiredColumns.
Proof.
  unfold missingColumns. rewrite !list_elem_of_In, filter_In. tauto.
Qed.

Lemma missingColumns_elem (cols : list string) (c : CheckSchema.column) :
  c ∈ CheckSchema.requiredColumns ->
  includes_str cols (CheckSchema.column_name c) = false ->
  c ∈ missingColumns cols.
Proof.
  intros Hreq Hmiss. unfold missingColumns. apply list_elem_of_In, filter_In.
  rewrite Hmiss. split; [by apply list_elem_of_In|done].
Qed.

Lemma filter_none {A : Type} (f : A -> bool) (l : list A) :
  (forall x, In x l -> f x = false) -> List.filter f l = [].
Proof.
  induction l as [|x l IH]; intros H; [done|].
  cbn. rewrite (H x) by (by left). apply IH. intros y Hy. apply H. by right.
Qed.

(** After a run on an existing table nothing of the baseline is missing. *)
Lemma missingColumns_after (cols : list string) :
  missingColumns (cols ++ map CheckSchema.column_name (missingColumns cols)) = [].
Proof.
  unfold missingColumns at 1. apply filter_none. intros c Hreq.
  apply negb_false_iff. rewrite includes_str_app.
  destruct (includes_str cols (CheckSchema.column_name c)) eqn:Hcols; [done|].
  rewrite orb_false_l. apply includes_str_true.
  apply (list_elem_of_fmap_2 CheckSchema.column_name).
  apply missingColumns_elem; [by apply list_elem_of_In|done].
Qed.

(** ** The reconciler on any database *)

Section ReconcilerAnyDatabase.
Context {DB : Type} (exec : executor DB).
Implicit Types (w : world DB) (c : CheckSchema.column).

(** One reconciler [addColumn]: one statement, one console line, and no
    rejection, whatever the database answers. *)
Lemma reconciler_addColumn_run w c :
  CheckSchema.addColumn exec c w
  = (inr tt,
     World (exec (db w) (CheckSchema.addColumnQuery c) []).2
           (calls w ++ [(CheckSchema.addColumnQuery c, [])])
           (console w ++
            [match (exec (db w) (CheckSchema.addColumnQuery c) []).1 with
             | inl message =>
                 ConsoleError ("Error adding column " +:+ CheckSchema.column_name c
                               +:+ ":") message
             | inr _ =>
                 ConsoleLog ("Column '" +:+ CheckSchema.column_name c
                             +:+ "' added successfully.")
             end])).
Proof.
  unfold CheckSchema.addColumn, try_catch, bind. rewrite pool_query_run.
  by destruct (exec (db w) (CheckSchema.addColumnQuery c) []) as [[e|rows] d].
Qed.

Lemma attempts_length (d : DB) (l : list CheckSchema.column) :
  length (attempts exec d l).2 = length l.
Proof.
  revert d. induction l as [|c l IH]; intros d; [done|].
  cbn [attempts snd length]. by rewrite IH.
Qed.

Lemma attempts_lookup (d : DB) (l : list CheckSchema.column) (i : nat) c :
  l !! i = Some c ->
  (attempts exec d l).2 !! i
  = Some (report c (exec (attempts exec d (take i l)).1
                         (CheckSchema.addColumnQuery c) []).1).
Proof.
  revert d i. induction l as [|c' l IH]; intros d i Hi; [done|].
  destruct i as [|i].
  - cbn in Hi. by injection Hi as ->.
  - cbn in Hi. cbn [attempts snd fst take]. by apply IH.
Qed.

Lemma reconciler_loop (names : list value) (l : list CheckSchema.column) :
  forall w,
    let missing :=
      List.filter (fun c => negb (includes names (CheckSchema.column_name c))) l in
    CheckSchema.for_of l (fun column =>
        if negb (includes names (CheckSchema.column_name column))
        then CheckSchema.addColumn exec column
        else ret tt) w
    = (inr tt,
       World (attempts exec (db w) missing).1
             (calls w ++ map (fun c => (CheckSchema.addColumnQuery c, [])) missing)
             (console w ++ (attempts exec (db w) missing).2)).
Proof.
  induction l as [|c l IH]; intros w missing.
  - subst missing. cbn. rewrite !app_nil_r. by destruct w.
  - subst missing. cbn [CheckSchema.for_of List.filter]. unfold bind at 1.
    destruct (negb (includes names (CheckSchema.column_name c))).
    + rewrite reconciler_addColumn_run, IH.
      cbn [db calls console attempts map fst snd].
      by rewrite <- !app_assoc.
    + unfold ret at 1. apply IH.
Qed.

Lemma ensureColumns_run w :
  CheckSchema.ensureColumns exec w
  = match exec (db w) CheckSchema.columnNamesQuery [] with
    | (inl e, d) =>
        (inl e, World d (calls w ++ [(CheckSchema.columnNamesQuery, [])]) (console w))
    | (inr columnRows, d1) =>
        let existingColumns := map (fun r => prop r "column_name") columnRows in
        let missing :=
          List.filter (fun c => negb (includes existingColumns
                                               (CheckSchema.column_name c)))
                      CheckSchema.requiredColumns in
        (inr tt,
         World (attempts exec d1 missing).1
               (calls w ++ (CheckSchema.columnNamesQuery, [])
                           :: map (fun c => (CheckSchema.addColumnQuery c, [])) missing)
               (console w ++ (attempts exec d1 missing).2))
    end.
Proof.
  unfold CheckSchema.ensureColumns, CheckSchema.getTableColumns.
  unfold bind at 1. unfold bind at 1. rewrite pool_query_run.
  destruct (exec (db w) CheckSchema.columnNamesQuery []) as [[e|columnRows] d1];
    cbn [fst snd]; [done|].
  unfold ret at 1. rewrite reconciler_loop. cbn [db calls console].
  by rewrite <- app_assoc.
Qed.

(** A run on a table the existence check reports, once the columns are
    listed: nothing is created, and what is sent after the two queries
    depends on the listing alone. *)
Lemma ensureTableSchema_existing w (first : row) (rest : list row) (d1 : DB)
    (columnRows : list row) (d2 : DB) :
  exec (db w) CheckSchema.tableCheckQuery [] = (inr (first :: rest), d1) ->
  truthy (prop first "exists") = true ->
  exec d1 CheckSchema.columnNamesQuery [] = (inr columnRows, d2) ->
  let existingColumns := map (fun r => prop r "column_name") columnRows in
  let missing :=
    List.filter (fun c => negb (includes existingColumns
                                         (CheckSchema.column_name c)))
                CheckSchema.requiredColumns in
  CheckSchema.ensureTableSchema exec w
  = (inr tt,
     World (attempts exec d2 missing).1
           (calls w ++ (CheckSchema.tableCheckQuery, [])
                       :: (CheckSchema.columnNamesQuery, [])
                       :: map (fun c => (CheckSchema.addColumnQuery c, [])) missing)
           (console w ++ ConsoleLog "Table property_data already exists."
                         :: (attempts exec d2 missing).2)).
Proof.
  intros Hcheck Hexists Hlist existingColumns missing.
  unfold CheckSchema.ensureTableSchema, try_catch.
  unfold bind at 1. unfold bind at 1. unfold bind at 1.
  rewrite pool_query_run, Hcheck. cbn [fst snd head]. unfold ret at 1.
  rewrite Hexists. cbn [negb]. unfold console_log at 1.
  cbn [db calls console]. rewrite ensureColumns_run.
  cbn [db calls console]. rewrite Hlist.
  by rewrite <- !app_assoc.
Qed.

Lemma ensureColumns_sends w :
  exists sent : list call,
    calls (CheckSchema.ensureColumns exec w).2 = calls w ++ sent
    /\ Forall (fun q : call => reconciler_statement q.1) sent.
Proof.
  rewrite ensureColumns_run.
  destruct (exec (db w) CheckSchema.columnNamesQuery []) as [[e|columnRows] d1].
  - eexists. split; [reflexivity|].
    apply Forall_cons. split; [by right; right; left|apply Forall_nil_2].
  - eexists. split; [reflexivity|].
    apply Forall_cons. split; [by right; right; left|].
    apply Forall_fmap, Forall_forall. intros c Hc.
    right; right; right. exists c. split; [|done].
    apply list_elem_of_In, filter_In in Hc as [Hc _]. by apply list_elem_of_In.
Qed.

(** Whatever the database answers, a run sends nothing but the existence
    check, CREATE TABLE, the column listing and ADD COLUMN of baseline
    columns. *)
Lemma ensureTableSchema_sends w :
  exists sent : list call,
    calls (CheckSchema.ensureTableSchema exec w).2 = calls w ++ sent
    /\ Forall (fun q : call => reconciler_statement q.1) sent.
Proof.
  unfold CheckSchema.ensureTableSchema, try_catch.
  unfold bind at 1. unfold bind at 1. unfold bind at 1.
  rewrite pool_query_run.
  destruct (exec (db w) CheckSchema.tableCheckQuery []) as [[e|[|first rest]] d1];
    cbn [fst snd head].
  - eexists. split; [reflexivity|].
    apply Forall_cons. split; [by left|apply Forall_nil_2].
  - eexists. split; [reflexivity|].
    apply Forall_cons. split; [by left|apply Forall_nil_2].
  - unfold ret at 1. destruct (truthy (prop first "exists")); cbn [negb].
    + unfold console_log at 1. cbn [db calls console].
      match goal with
      | |- context [CheckSchema.ensureColumns exec ?w1] =>
          destruct (ensureColumns_sends w1) as (sent & Hsent & Hall);
          destruct (CheckSchema.ensureColumns exec w1) as [[e|[]] w2]
      end; cbn [snd calls console_error] in Hsent |- *; rewrite Hsent, <- app_assoc;
        (eexists; split; [reflexivity|]);
        (apply Forall_cons; split; [by left|exact Hall]).
    + unfold bind at 1. unfold console_log at 1. cbn [db calls console].
      unfold bind at 1. rewrite pool_query_run. cbn [db calls console].
      destruct (exec d1 CheckSchema.createTableQuery []) as [[e|rows] d2];
        cbn [fst snd].
      * cbn [calls console_error snd]. rewrite <- app_assoc.
        eexists. split; [reflexivity|].
        apply Forall_cons. split; [by left|].
        apply Forall_cons. split; [by right; left|apply Forall_nil_2].
      * unfold console_log at 1. cbn [db calls console].
        match goal with
        | |- context [CheckSchema.ensureColumns exec ?w1] =>
            destruct (ensureColumns_sends w1) as (sent & Hsent & Hall);
            destruct (CheckSchema.ensureColumns exec w1) as [[e|[]] w2]
        end; cbn [snd calls console_error] in Hsent |- *;
          rewrite Hsent, <- !app_assoc;
          (eexists; split; [reflexivity|]);
          (apply Forall_cons; split; [by left|]);
          (apply Forall_cons; split; [by right; left|exact Hall]).
Qed.

End ReconcilerAnyDatabase.

(** The keyword test tells the statements that drop or rename a column
    from the one that adds one. *)
Lemma mentions_recognises :
  mentions "DROP" (buildDeleteColumnQuery "status") = true
  /\ mentions "RENAME" (buildRenameColumnQuery "status" "state") = true
  /\ mentions "DROP" "alter table property_data drop column status;" = true
  /\ mentions "DROP" "ALTER TABLE property_data ADD COLUMN status VARCHAR;" = false
  /\ mentions "RENAME" "ALTER TABLE property_data ADD COLUMN status VARCHAR;" = false.
Proof. by vm_compute. Qed.

(** No statement of the reconciler has DROP or RENAME in its text. *)
Lemma reconciler_statement_keeps (sql : string) :
  reconciler_statement sql ->
  mentions "DROP" sql = false /\ mentions "RENAME" sql = false.
Proof.
  assert (Hadd : Forall (fun c => mentions "DROP" (CheckSchema.addColumnQuery c) = false
                                  /\ mentions "RENAME" (CheckSchema.addColumnQuery c)
                                     = false)
                        CheckSchema.requiredColumns)
    by (repeat constructor; by vm_compute).
  intros [->|[->|[->|(c & Hc & ->)]]]; try (split; by vm_compute).
  exact (proj1 (Forall_forall _ _) Hadd c Hc).
Qed.

(** C7, as the code has it. On a database that carries out the
    statements it is sent (the catalog), one run of [ensureTableSchema]
    completes and leaves a table with every baseline column, and with
    the identifier column when the table was absent before or already
    had one; a second run right after it sends the existence check and
    the column listing only, no CREATE TABLE and no ADD COLUMN, and
    changes nothing; the columns of an existing table stay in place and
    in order. On any database, a run completes and sends nothing but the
    existence check, CREATE TABLE, the column listing and ADD COLUMN of
    baseline columns, and none of these statements has DROP or RENAME in
    its text; on a table the existence check reports, what is sent after
    the two queries is one ADD COLUMN for each baseline column the
    listing lacks, so nothing when it lacks none. A rejected ADD COLUMN
    is only written to the console: the column is still missing at the
    next run and is sent again. *)
Theorem reconciliation_idempotent :
  forall st : Catalog.state,
    let first := Catalog.startup st in
    let st1 := db first.2 in
    let second := Catalog.startup st1 in
    first.1 = inr tt
    /\ (forall c, c ∈ baseline -> Catalog.has_column st1 c)
    /\ (st = None \/ Catalog.has_column st "id" -> Catalog.has_column st1 "id")
    /\ second
       = (inr tt,
          World st1
                [(CheckSchema.tableCheckQuery, []);
                 (CheckSchema.columnNamesQuery, [])]
                [ConsoleLog "Table property_data already exists."])
    /\ Forall (fun c => is_ddl c.1 = false) (calls second.2)
    /\ (forall cols, st = Some cols ->
          st1 = Some (cols ++ map CheckSchema.column_name (missingColumns cols)))
    /\ Forall (fun c => reconciler_statement c.1) (calls first.2)
    /\ (forall (DB : Type) (exec : executor DB) (w : world DB),
          (CheckSchema.ensureTableSchema exec w).1 = inr tt
          /\ exists sent : list call,
               calls (CheckSchema.ensureTableSchema exec w).2 = calls w ++ sent
               /\ Forall (fun q : call =>
                            reconciler_statement q.1
                            /\ mentions "DROP" q.1 = false
                            /\ mentions "RENAME" q.1 = false) sent)
    /\ (forall (DB : Type) (exec : executor DB) (w : world DB) (answer : row)
               (rest : list row) (d1 : DB) (columnRows : list row) (d2 : DB),
          exec (db w) CheckSchema.tableCheckQuery [] = (inr (answer :: rest), d1) ->
          truthy (prop answer "exists") = true ->
          exec d1 CheckSchema.columnNamesQuery [] = (inr columnRows, d2) ->
          let existingColumns := map (fun r => prop r "column_name") columnRows in
          let missing :=
            List.filter (fun c => negb (includes existingColumns
                                                 (CheckSchema.column_name c)))
                        CheckSchema.requiredColumns in
          calls (CheckSchema.ensureTableSchema exec w).2
          = calls w ++ (CheckSchema.tableCheckQuery, [])
                       :: (CheckSchema.columnNamesQuery, [])
                       :: map (fun c => (CheckSchema.addColumnQuery c, [])) missing
          /\ ((forall name, name ∈ baseline -> includes existingColumns name = true) ->
              CheckSchema.ensureTableSchema exec w
              = (inr tt,
                 World d2
                       (calls w ++ [(CheckSchema.tableCheckQuery, []);
                                    (CheckSchema.columnNamesQuery, [])])
                       (console w
                        ++ [ConsoleLog "Table property_data already exists."]))))
    /\ (let listing :=
          map (fun name => [("column_name", VStr name)])
              ["id"; "property_name"; "address"; "total_area_in_sqft";
               "price_in_cr"; "listed_date"; "total_earnings"] in
        let script :=
          [inr [[("exists", VBool true)]]; inr listing; inl "permission denied"] in
        let run1 := CheckSchema.ensureTableSchema queryStub
                      (World (script ++ script) [] []) in
        let run2 := CheckSchema.ensureTableSchema queryStub
                      (World (db run1.2) [] []) in
        calls run1.2
        = [(CheckSchema.tableCheckQuery, []); (CheckSchema.columnNamesQuery, []);
           ("ALTER TABLE property_data ADD COLUMN status VARCHAR;", [])]
        /\ console run1.2
           = [ConsoleLog "Table property_data already exists.";
              ConsoleError "Error adding column status:" "permission denied"]
        /\ calls run2.2 = calls run1.2).
Proof.
  assert (Hany : forall (DB : Type) (exec : executor DB) (w : world DB),
            (CheckSchema.ensureTableSchema exec w).1 = inr tt
            /\ exists sent : list call,
                 calls (CheckSchema.ensureTableSchema exec w).2 = calls w ++ sent
                 /\ Forall (fun q : call =>
                              reconciler_statement q.1
                              /\ mentions "DROP" q.1 = false
                              /\ mentions "RENAME" q.1 = false) sent).
  { intros DB exec w. split.
    - unfold CheckSchema.ensureTableSchema, try_catch.
      by destruct (bind _ _ w) as [[e|[]] w'].
    - destruct (ensureTableSchema_sends exec w) as (sent & Hsent & Hall).
      exists sent. split; [exact Hsent|].
      eapply Forall_impl; [exact Hall|]. intros q Hq.
      split; [exact Hq|by apply reconciler_statement_keeps]. }
  assert (Hlisted : forall (DB : Type) (exec : executor DB) (w : world DB)
            (answer : row) (rest : list row) (d1 : DB) (columnRows : list row)
            (d2 : DB),
            exec (db w) CheckSchema.tableCheckQuery [] = (inr (answer :: rest), d1) ->
            truthy (prop answer "exists") = true ->
            exec d1 CheckSchema.columnNamesQuery [] = (inr columnRows, d2) ->
            let existingColumns := map (fun r => prop r "column_name") columnRows in
            let missing :=
              List.filter (fun c => negb (includes existingColumns
                                                   (CheckSchema.column_name c)))
                          CheckSchema.requiredColumns in
            calls (CheckSchema.ensureTableSchema exec w).2
            = calls w ++ (CheckSchema.tableCheckQuery, [])
                         :: (CheckSchema.columnNamesQuery, [])
                         :: map (fun c => (CheckSchema.addColumnQuery c, [])) missing
            /\ ((forall name, name ∈ baseline -> includes existingColumns name = true) ->
                CheckSchema.ensureTableSchema exec w
                = (inr tt,
                   World d2
                         (calls w ++ [(CheckSchema.tableCheckQuery, []);
                                      (CheckSchema.columnNamesQuery, [])])
                         (console w
                          ++ [ConsoleLog "Table property_data already exists."])))).
  { intros DB exec w answer rest d1 columnRows d2 Hcheck Hexists Hlist
      existingColumns missing.
    rewrite (ensureTableSchema_existing exec w answer rest d1 columnRows d2
               Hcheck Hexists Hlist).
    cbv zeta. fold existingColumns. fold missing. split; [done|].
    intros Hall. assert (Hnone : missing = []).
    { apply filter_none. intros c Hc. apply negb_false_iff, Hall.
      apply (list_elem_of_fmap_2 CheckSchema.column_name).
      by apply list_elem_of_In. }
    by rewrite Hnone. }
  assert (Hagain :
    let listing :=
      map (fun name => [("column_name", VStr name)])
          ["id"; "property_name"; "address"; "total_area_in_sqft";
           "price_in_cr"; "listed_date"; "total_earnings"] in
    let script :=
      [inr [[("exists", VBool true)]]; inr listing; inl "permission denied"] in
    let run1 := CheckSchema.ensureTableSchema queryStub
                  (World (script ++ script) [] []) in
    let run2 := CheckSchema.ensureTableSchema queryStub
                  (World (db run1.2) [] []) in
    calls run1.2
    = [(CheckSchema.tableCheckQuery, []); (CheckSchema.columnNamesQuery, []);
       ("ALTER TABLE property_data ADD COLUMN status VARCHAR;", [])]
    /\ console run1.2
       = [ConsoleLog "Table property_data already exists.";
          ConsoleError "Error adding column status:" "permission denied"]
    /\ calls run2.2 = calls run1.2) by (by vm_compute).
  intros [cols|]; cbv zeta.
  - rewrite startup_existing. cbn [fst snd db calls].
    rewrite startup_existing, missingColumns_after. cbn [map app].
    rewrite app_nil_r.
    split; [done|]. split; [|split; [|split; [done|split; [|split; [|split]]]]].
    + intros c Hc. unfold Catalog.has_column. apply elem_of_app.
      destruct (includes_str cols c) eqn:Hin.
      * left. by apply includes_str_true.
      * right. unfold baseline in Hc.
        apply list_elem_of_fmap in Hc as (col & -> & Hcol).
        apply (list_elem_of_fmap_2 CheckSchema.column_name).
        by apply missingColumns_elem.
    + intros [?|Hid]; [done|]. unfold Catalog.has_column in *.
      apply elem_of_app. by left.
    + by repeat constructor.
    + by intros ? [= <-].
    + apply Forall_cons. split; [by left|].
      apply Forall_cons. split; [by right; right; left|].
      apply Forall_fmap, Forall_forall. intros c Hc.
      right; right; right. exists c. split; [|done].
      by apply (missingColumns_required cols).
    + split; [exact Hany|split; [exact Hlisted|exact Hagain]].
  - rewrite startup_absent. cbn [fst snd db calls].
    rewrite startup_existing.
    change (missingColumns Catalog.createdColumns) with (@nil CheckSchema.column).
    cbn [map app]. rewrite app_nil_r.
    split; [done|]. split; [|split; [|split; [done|split; [|split; [|split]]]]].
    + intros c Hc. unfold Catalog.has_column. by right.
    + intros _. unfold Catalog.has_column. by left.
    + by repeat constructor.
    + done.
    + apply Forall_cons. split; [by left|].
      apply Forall_cons. split; [by right; left|].
      apply Forall_cons. split; [by right; right; left|].
      apply Forall_nil_2.
    + split; [exact Hany|split; [exact Hlisted|exact Hagain]].
Qed.

(** C7, as stated, fails: a table that has lost its identifier column
    (every baseline column is there) passes reconciliation unchanged, so
    the identifier is still missing afterwards. *)
Lemma reconciliation_leaves_id_missing :
  let st := Some baseline in
  let st1 := db (Catalog.startup st).2 in
  st1 = Some baseline /\ ~ Catalog.has_column st1 "id".
Proof.
  assert (H : db (Catalog.startup (Some baseline)).2 = Some baseline)
    by (by vm_compute).
  cbv zeta. rewrite H. split; [done|]. cbn. compute_done.
Qed.

(** * Further properties of the builders *)

(** Decimal rendering loses nothing: different numbers are written
    differently. *)
Lemma show_nat_inj (n m : nat) : show_nat n = show_nat m -> n = m.
Proof.
  unfold show_nat. intros H.
  assert (Hnil : forall k, Nat.to_uint k <> Decimal.Nil).
  { intros k Hk. pose proof (Unsigned.of_to k) as Hof. rewrite Hk in Hof.
    cbn in Hof. subst k. discriminate Hk. }
  apply Unsigned.to_uint_inj.
  pose proof (NilZero.usu _ (Hnil n)) as Hn.
  pose proof (NilZero.usu _ (Hnil m)) as Hm.
  rewrite H in Hn. congruence.
Qed.

Lemma placeholders_NoDup (start len : nat) :
  NoDup (map (fun p => "$" +:+ show_nat p) (seq start len)).
Proof.
  assert (Hinj : Inj eq eq (fun p => "$" +:+ show_nat p)).
  { intros p p' H. apply show_nat_inj. by injection H. }
  apply (NoDup_fmap_2 _). apply NoDup_ListNoDup, seq_NoDup.
Qed.

Lemma placeholders_lookup (len i : nat) :
  i < len ->
  map (fun p => "$" +:+ show_nat p) (seq 1 len) !! i
  = Some ("$" +:+ show_nat (i + 1)).
Proof.
  intros Hi. change (map ?f ?l) with (f <$> l).
  rewrite list_lookup_fmap, lookup_seq_lt by done.
  cbn. by replace (S i) with (i + 1) by lia.
Qed.

(** X1: in the INSERT that [buildInsertQuery] writes, the column list,
    the placeholder list and the bind values run in step: the [i]-th
    column is the [i]-th key, its placeholder is [$(i+1)] and its value is
    the [i]-th bind value; no placeholder occurs twice. The builder does
    not reject an empty object: it writes empty parentheses. *)
Theorem buildInsertQuery_positions :
  forall (V : Type) (table : string) (data : obj V),
    let q := buildInsertQuery table data in
    let placeholders :=
      map (fun p => "$" +:+ show_nat p) (seq 1 (length data)) in
    query q
    = "INSERT INTO " +:+ table +:+ " (" +:+ join ", " (JsObject.keys data)
      +:+ ") VALUES (" +:+ join ", " placeholders +:+ ") RETURNING *"
    /\ length (JsObject.keys data) = length placeholders
    /\ length (values q) = length placeholders
    /\ NoDup placeholders
    /\ (forall i k v, data !! i = Some (k, v) ->
          JsObject.keys data !! i = Some k
          /\ placeholders !! i = Some ("$" +:+ show_nat (i + 1))
          /\ values q !! i = Some v)
    /\ (data = [] ->
          q = BuiltQuery ("INSERT INTO " +:+ table +:+ " () VALUES () RETURNING *")
                         []).
Proof.
  intros V table data q placeholders.
  split; [|split; [|split; [|split; [|split]]]].
  - unfold q. rewrite buildInsertQuery_text. unfold insert_text.
    by rewrite keys_length.
  - unfold placeholders. by rewrite length_map, length_seq, keys_length.
  - unfold placeholders, q. cbn [buildInsertQuery values].
    by rewrite length_map, length_seq, values_length.
  - apply placeholders_NoDup.
  - intros i k v Hi. split; [by apply (keys_lookup _ _ _ v)|]. split.
    + apply placeholders_lookup. by eapply lookup_lt_Some.
    + by apply (values_lookup _ _ k).
  - by intros ->.
Qed.

Lemma append_empty_r (s : string) : s +:+ "" = s.
Proof.
  induction s as [|c s IH]; [done|].
  change (String c (s +:+ "") = String c s). by rewrite IH.
Qed.

(** X2: [buildSelectQuery] writes a WHERE clause exactly when there is a
    condition, and [buildDeleteQuery] always; in both the [i]-th
    condition reads [k = $(i+1)] and is bound to the [i]-th value. *)
Theorem select_delete_conditions :
  forall (V : Type) (table : string) (columns : list string)
         (conditions : obj V),
    let items := numbered 1 (JsObject.keys conditions) in
    (conditions = [] ->
       buildSelectQuery table conditions columns
       = BuiltQuery ("SELECT " +:+ join ", " columns +:+ " FROM " +:+ table) [])
    /\ (conditions <> [] ->
          query (buildSelectQuery table conditions columns)
          = "SELECT " +:+ join ", " columns +:+ " FROM " +:+ table
            +:+ " WHERE " +:+ join " AND " items)
    /\ query (buildDeleteQuery table conditions)
       = "DELETE FROM " +:+ table +:+ " WHERE " +:+ join " AND " items
    /\ length items = length conditions
    /\ (forall i k v, conditions !! i = Some (k, v) ->
          items !! i = Some (k +:+ " = $" +:+ show_nat (i + 1))
          /\ values (buildSelectQuery table conditions columns) !! i = Some v
          /\ values (buildDeleteQuery table conditions) !! i = Some v).
Proof.
  intros V table columns conditions items.
  split; [|split; [|split; [|split]]].
  - intros ->. unfold buildSelectQuery.
    cbn [JsObject.keys JsObject.values fmap list_fmap length Nat.eqb].
    f_equal. rewrite <- !append_assoc. apply append_empty_r.
  - intros Hne. rewrite buildSelectQuery_text. unfold select_text.
    by destruct conditions.
  - by rewrite buildDeleteQuery_text.
  - unfold items. clear. generalize 1.
    induction conditions as [|[k v] c IH]; intros n; [done|].
    cbn. by rewrite IH.
  - intros i k v Hi. split; [|split].
    + unfold items.
      rewrite (numbered_lookup 1 _ i k (keys_lookup _ _ _ _ Hi)).
      by replace (1 + i) with (i + 1) by lia.
    + by apply (values_lookup _ _ k).
    + by apply (values_lookup _ _ k).
Qed.

Lemma upper_ascii_idem (c : Ascii.ascii) :
  upper_ascii (upper_ascii c) = upper_ascii c.
Proof. by destruct c as [[] [] [] [] [] [] [] []]. Qed.

Lemma ascii_upper_idem (s : string) : ascii_upper (ascii_upper s) = ascii_upper s.
Proof.
  induction s as [|c s IH]; [done|].
  cbn [ascii_upper]. by rewrite upper_ascii_idem, IH.
Qed.

(** X3: whatever type string the caller passes, the type written into a
    statement that [buildAddColumnQuery] returns is one of the seven
    allowed names: the upper-case form of the given type, which for a
    type of ASCII characters is the name it equals up to letter case. The
    column name is written as given. *)
Theorem buildAddColumnQuery_type_whitelisted {table : CaseTable} :
  forall columnName columnType statement : string,
    buildAddColumnQuery columnName columnType = inr statement ->
    exists T : string,
      T ∈ validTypes
      /\ toUpperCase columnType = T
      /\ (ascii_only columnType = true -> eq_ignoring_case columnType T = true)
      /\ statement = "ALTER TABLE property_data ADD COLUMN " +:+ columnName
                     +:+ " " +:+ T +:+ ";".
Proof.
  intros name type statement. unfold buildAddColumnQuery.
  destruct (validateColumnType type) eqn:Hvalid; [|discriminate].
  intros [= <-]. exists (toUpperCase type).
  split; [by apply includes_str_elem|]. split; [done|]. split; [|done].
  intros Hascii. rewrite (toUpperCase_ascii type Hascii).
  rewrite eq_ignoring_case_upper, ascii_upper_idem. apply String.eqb_refl.
Qed.

Lemma buildAddColumnQuery_type_whitelisted_witness :
  exists T : string,
    T ∈ validTypes
    /\ toUpperCase (table := keep_others) "Boolean" = T
    /\ (ascii_only "Boolean" = true -> eq_ignoring_case "Boolean" T = true)
    /\ "ALTER TABLE property_data ADD COLUMN garage BOOLEAN;"
       = "ALTER TABLE property_data ADD COLUMN " +:+ "garage" +:+ " " +:+ T +:+ ";".
Proof.
  apply (buildAddColumnQuery_type_whitelisted (table := keep_others)
           "garage" "Boolean").
  reflexivity.
Defined.

(** X4: the letter case of the type makes no difference to the column
    builder: two types that agree up to case are both accepted or both
    rejected, and give the same statement or the same error. *)
Theorem column_type_case_irrelevant {table : CaseTable} :
  forall s t : string,
    eq_ignoring_case s t = true ->
    validateColumnType s = validateColumnType t
    /\ (forall columnName : string,
          buildAddColumnQuery columnName s = buildAddColumnQuery columnName t).
Proof.
  intros s t H. apply toUpperCase_ignoring_case in H.
  unfold buildAddColumnQuery, validateColumnType. by rewrite H.
Qed.

Lemma column_type_case_irrelevant_witness :
  buildAddColumnQuery (table := keep_others) "built_on" "TimeStamp"
  = buildAddColumnQuery (table := keep_others) "built_on" "timestamp".
Proof.
  apply (column_type_case_irrelevant "TimeStamp" "timestamp"). reflexivity.
Defined.

(** * Further properties of the repository *)

Section RepositoryMore.
Context {DB : Type} (exec : executor DB).
Implicit Types (w : world DB) (input : obj value) (id : value).

Lemma issued_app w (d : DB) (added : list call) (out : list console_line) :
  issued w (World d (calls w ++ added) out) = added.
Proof. unfold issued. cbn [calls]. by rewrite drop_app_length. Qed.

Lemma getTableColumnsNames_rejected w (message : string) (d1 : DB) :
  exec (db w) PropertyModel.columnNamesQuery [] = (inl message, d1) ->
  PropertyModel.getTableColumnsNames exec w
  = (inl message,
     World d1 (calls w ++ [(PropertyModel.columnNamesQuery, [])]) (console w)).
Proof. intros H. by rewrite getTableColumnsNames_run, H. Qed.

Lemma lookup_rejected_all w (message : string) (d1 : DB) input id :
  exec (db w) PropertyModel.columnNamesQuery [] = (inl message, d1) ->
  let w1 := World d1 (calls w ++ [(PropertyModel.columnNamesQuery, [])])
                  (console w) in
  PropertyModel.insertProperty exec input w = (inl message, w1)
  /\ PropertyModel.updateProperty exec id input w = (inl message, w1).
Proof.
  intros H w1.
  unfold PropertyModel.insertProperty, PropertyModel.updateProperty, bind.
  by rewrite (getTableColumnsNames_rejected w message d1 H).
Qed.

Lemma insert_text_prefix (o : obj value) :
  starts_with (query (buildInsertQuery "property_data" o))
              "INSERT INTO property_data (".
Proof. eexists. unfold buildInsertQuery. cbn [query]. reflexivity. Qed.

Lemma update_text_prefix (o c : obj value) :
  starts_with (query (buildUpdateQuery "property_data" o c))
              "UPDATE property_data SET ".
Proof. eexists. unfold buildUpdateQuery. cbn [query]. reflexivity. Qed.

Lemma insertProperty_shape w input :
  let r := PropertyModel.insertProperty exec input w in
  issued w r.2 = [(PropertyModel.columnNamesQuery, [])]
  \/ exists sql vals,
       issued w r.2 = [(PropertyModel.columnNamesQuery, []); (sql, vals)]
       /\ starts_with sql "INSERT INTO property_data (".
Proof.
  cbv zeta.
  destruct (exec (db w) PropertyModel.columnNamesQuery []) as [[e|rows] d1] eqn:H.
  - left. destruct (lookup_rejected_all w e d1 input VNull H) as (-> & _).
    apply issued_app.
  - rewrite (insertProperty_run exec w input rows d1 H). cbv zeta.
    destruct (length _ =? 0)%nat.
    + left. apply issued_app.
    + right. eexists _, _. split; [apply issued_app|apply insert_text_prefix].
Qed.

Lemma updateProperty_shape w id input :
  let r := PropertyModel.updateProperty exec id input w in
  issued w r.2 = [(PropertyModel.columnNamesQuery, [])]
  \/ exists sql vals,
       issued w r.2 = [(PropertyModel.columnNamesQuery, []); (sql, vals)]
       /\ starts_with sql "UPDATE property_data SET ".
Proof.
  cbv zeta.
  destruct (exec (db w) PropertyModel.columnNamesQuery []) as [[e|rows] d1] eqn:H.
  - left. destruct (lookup_rejected_all w e d1 input id H) as (_ & ->).
    apply issued_app.
  - rewrite (updateProperty_run exec w id input rows d1 H). cbv zeta.
    destruct (length _ =? 0)%nat.
    + left. apply issued_app.
    + right. eexists _, _. split; [apply issued_app|apply update_text_prefix].
Qed.

End RepositoryMore.

(** X5: when the column lookup itself is rejected, [insertProperty],
    [updateProperty] and [addColumn] reject with the database's message
    and send nothing after the lookup. *)
Theorem lookup_rejection_propagates {table : CaseTable} :
  forall (DB : Type) (exec : executor DB) (w : world DB) (message : string)
         (d1 : DB) (input : obj value) (id : value)
         (columnName columnType : string),
    exec (db w) PropertyModel.columnNamesQuery [] = (inl message, d1) ->
    let w1 := World d1 (calls w ++ [(PropertyModel.columnNamesQuery, [])])
                    (console w) in
    PropertyModel.insertProperty exec input w = (inl message, w1)
    /\ PropertyModel.updateProperty exec id input w = (inl message, w1)
    /\ PropertyModel.addColumn exec columnName columnType w = (inl message, w1).
Proof.
  intros DB exec w message d1 input id columnName columnType Hlookup w1.
  assert (Hnames : PropertyModel.getTableColumnsNames exec w = (inl message, w1)).
  { rewrite getTableColumnsNames_run. by rewrite Hlookup. }
  unfold PropertyModel.insertProperty, PropertyModel.updateProperty,
    PropertyModel.addColumn, bind.
  rewrite Hnames. by repeat split.
Qed.

Lemma lookup_rejection_propagates_witness :
  PropertyModel.insertProperty queryStub [("status", VStr "sold")]
    (World [inl "connection refused"] [] [])
  = (inl "connection refused",
     World [] [(PropertyModel.columnNamesQuery, [])] []).
Proof.
  refine (proj1 (lookup_rejection_propagates (table := keep_others) _ queryStub
    (World [inl "connection refused"] [] []) "connection refused" []
    [("status", VStr "sold")] VNull "" "" _)).
  reflexivity.
Defined.

(** X6: whatever the input and whatever the database answers, a run of
    [insertProperty] or [updateProperty] sends the column lookup first and
    after it at most one statement, an INSERT INTO (respectively UPDATE)
    on [property_data]; it never sends DDL. *)
Theorem row_writes_send_at_most_two :
  forall (DB : Type) (exec : executor DB) (w : world DB) (id : value)
         (input : obj value),
    let sent_by_insert := issued w (PropertyModel.insertProperty exec input w).2 in
    let sent_by_update := issued w (PropertyModel.updateProperty exec id input w).2 in
    (sent_by_insert = [(PropertyModel.columnNamesQuery, [])]
     \/ exists sql vals,
          sent_by_insert = [(PropertyModel.columnNamesQuery, []); (sql, vals)]
          /\ starts_with sql "INSERT INTO property_data (")
    /\ (sent_by_update = [(PropertyModel.columnNamesQuery, [])]
        \/ exists sql vals,
             sent_by_update = [(PropertyModel.columnNamesQuery, []); (sql, vals)]
             /\ starts_with sql "UPDATE property_data SET ")
    /\ Forall (fun c => is_ddl c.1 = false) sent_by_insert
    /\ Forall (fun c => is_ddl c.1 = false) sent_by_update.
Proof.
  intros DB exec w id input sent_by_insert sent_by_update.
  pose proof (insertProperty_shape exec w input) as Hi.
  pose proof (updateProperty_shape exec w id input) as Hu.
  cbv zeta in Hi, Hu. fold sent_by_insert in Hi. fold sent_by_update in Hu.
  split; [exact Hi|]. split; [exact Hu|]. split.
  - destruct Hi as [->|(sql & vals & -> & Hp)].
    + by repeat constructor.
    + apply Forall_cons. split; [done|]. apply Forall_cons. split; [|done].
      cbn [fst]. destruct Hp as [rest ->]. reflexivity.
  - destruct Hu as [->|(sql & vals & -> & Hp)].
    + by repeat constructor.
    + apply Forall_cons. split; [done|]. apply Forall_cons. split; [|done].
      cbn [fst]. destruct Hp as [rest ->]. reflexivity.
Qed.

(** X7: [updateProperty] sends to the database only the values of the
    properties whose key is a current table column, in the order of the
    input, followed by the row id: the UPDATE assigns exactly those
    columns and its WHERE clause is [id = $(n+1)], whatever other keys
    the input has. An own [__proto__] key is never among them. *)
Theorem updateProperty_keeps_table_columns :
  forall (DB : Type) (exec : executor DB) (w : world DB) (id : value)
         (updates : obj value) (columnRows : list row) (d1 : DB),
    JsObject.enumerated updates ->
    exec (db w) PropertyModel.columnNamesQuery [] = (inr columnRows, d1) ->
    let tableColumns := map (fun r => prop r "column_name") columnRows in
    let updateData := copied tableColumns updates in
    updateData <> [] ->
    let q := buildUpdateQuery "property_data" updateData [("id", id)] in
    (forall k v, (k, v) ∈ updateData
                 <-> (k, v) ∈ updates /\ includes tableColumns k = true
                     /\ k <> "__proto__")
    /\ query q
       = "UPDATE property_data SET "
         +:+ join ", " (numbered 1 (JsObject.keys updateData))
         +:+ " WHERE id = $" +:+ show_nat (length updateData + 1)
         +:+ " RETURNING *"
    /\ values q = JsObject.values updateData ++ [id]
    /\ PropertyModel.updateProperty exec id updates w
       = (first_row (exec d1 (query q) (values q)).1,
          World (exec d1 (query q) (values q)).2
                (calls w ++ [(PropertyModel.columnNamesQuery, []);
                             (query q, values q)])
                (console w)).
Proof.
  intros DB exec w id updates columnRows d1 Henum Hlookup tableColumns
    updateData Hne q.
  split; [|split; [|split]].
  - intros k v. apply copied_elem.
  - unfold q. rewrite buildUpdateQuery_text.
    cbn [JsObject.keys fmap list_fmap fst numbered join].
    by rewrite !append_assoc.
  - reflexivity.
  - rewrite (updateProperty_run exec w id updates columnRows d1 Hlookup).
    cbv zeta. fold tableColumns. rewrite (forEach_copy_own _ _ Henum).
    fold updateData. by rewrite (keys_nonempty _ Hne).
Qed.

Lemma updateProperty_keeps_table_columns_witness :
  PropertyModel.updateProperty queryStub (VStr "3")
    [("status", VStr "sold"); ("owner", VStr "me"); ("address", VStr "1 Main St")]
    (World [inr [[("column_name", VStr "id")]; [("column_name", VStr "address")];
                 [("column_name", VStr "status")]];
            inr [[("id", VNum 3); ("address", VStr "1 Main St");
                  ("status", VStr "sold")]]] [] [])
  = (inr (Some [("id", VNum 3); ("address", VStr "1 Main St");
                ("status", VStr "sold")]),
     World []
       [(PropertyModel.columnNamesQuery, []);
        ("UPDATE property_data SET status = $1, address = $2 WHERE id = $3 RETURNING *",
         [VStr "sold"; VStr "1 Main St"; VStr "3"])]
       []).
Proof.
  refine (proj2 (proj2 (proj2 (updateProperty_keeps_table_columns _ queryStub
    (World [inr [[("column_name", VStr "id")]; [("column_name", VStr "address")];
                 [("column_name", VStr "status")]];
            inr [[("id", VNum 3); ("address", VStr "1 Main St");
                  ("status", VStr "sold")]]] [] [])
    (VStr "3")
    [("status", VStr "sold"); ("owner", VStr "me"); ("address", VStr "1 Main St")]
    [[("column_name", VStr "id")]; [("column_name", VStr "address")];
     [("column_name", VStr "status")]]
    [inr [[("id", VNum 3); ("address", VStr "1 Main St");
           ("status", VStr "sold")]]] _ _ _)))).
  - solve_enumerated.
  - reflexivity.
  - vm_compute. discriminate.
Defined.

(** X8: the reads and the delete of rows send one statement each, with a
    fixed text: the id is never written into the text, it is the only
    bind value. [fetchPropertyById] returns the first row of the answer,
    or [undefined] when there is none; [deleteProperty] succeeds whenever
    the database does, matched row or not. *)
Theorem row_reads_and_delete :
  forall (DB : Type) (exec : executor DB) (w : world DB) (id : value),
    let all := exec (db w) "SELECT * FROM property_data" [] in
    let one := exec (db w) "SELECT * FROM property_data WHERE id = $1" [id] in
    let del := exec (db w) "DELETE FROM property_data WHERE id = $1" [id] in
    PropertyModel.fetchAllProperties exec w
    = (all.1,
       World all.2 (calls w ++ [("SELECT * FROM property_data", [])]) (console w))
    /\ PropertyModel.fetchPropertyById exec id w
       = (first_row one.1,
          World one.2
                (calls w ++ [("SELECT * FROM property_data WHERE id = $1", [id])])
                (console w))
    /\ PropertyModel.deleteProperty exec id w
       = (no_value del.1,
          World del.2
                (calls w ++ [("DELETE FROM property_data WHERE id = $1", [id])])
                (console w)).
Proof.
  intros DB exec w id all one del. split; [|split].
  - unfold PropertyModel.fetchAllProperties, bind. rewrite pool_query_run.
    change (query (buildSelectQuery "property_data" [] ["*"]))
      with "SELECT * FROM property_data".
    change (values (buildSelectQuery "property_data" ([] : obj value) ["*"]))
      with (@nil value).
    fold all. by destruct all as [[e|rows] d].
  - unfold PropertyModel.fetchPropertyById, bind. rewrite pool_query_run.
    change (query (buildSelectQuery "property_data" [("id", id)] ["*"]))
      with "SELECT * FROM property_data WHERE id = $1".
    change (values (buildSelectQuery "property_data" [("id", id)] ["*"]))
      with [id].
    fold one. by destruct one as [[e|rows] d].
  - unfold PropertyModel.deleteProperty, bind. rewrite pool_query_run.
    change (query (buildDeleteQuery "property_data" [("id", id)]))
      with "DELETE FROM property_data WHERE id = $1".
    change (values (buildDeleteQuery "property_data" [("id", id)]))
      with [id].
    fold del. by destruct del as [[e|rows] d].
Qed.

(** X9: [renameColumn] and [deleteColumn] do not look at the catalog
    first: each sends a single ALTER TABLE statement with the names
    written into it as given, and fails only if the database rejects that
    statement. *)
Theorem rename_delete_column_unchecked :
  forall (DB : Type) (exec : executor DB) (w : world DB)
         (oldColumnName newColumnName columnName : string),
    let rename :=
      "ALTER TABLE property_data RENAME COLUMN " +:+ oldColumnName +:+ " TO "
      +:+ newColumnName +:+ ";" in
    let drop := "ALTER TABLE property_data DROP COLUMN " +:+ columnName +:+ ";" in
    PropertyModel.renameColumn exec oldColumnName newColumnName w
    = (no_value (exec (db w) rename []).1,
       World (exec (db w) rename []).2 (calls w ++ [(rename, [])]) (console w))
    /\ PropertyModel.deleteColumn exec columnName w
       = (no_value (exec (db w) drop []).1,
          World (exec (db w) drop []).2 (calls w ++ [(drop, [])]) (console w))
    /\ is_ddl rename = true
    /\ is_ddl drop = true.
Proof.
  intros DB exec w old new name rename drop. split; [|split; [|done]].
  - unfold PropertyModel.renameColumn, buildRenameColumnQuery, bind.
    rewrite pool_query_run. fold rename. by destruct (exec (db w) rename []) as [[e|rows] d].
  - unfold PropertyModel.deleteColumn, buildDeleteColumnQuery, bind.
    rewrite pool_query_run. fold drop. by destruct (exec (db w) drop []) as [[e|rows] d].
Qed.

(** * Further properties of the handlers *)

Section HandlerMore.
Context {table : CaseTable} {DB : Type} (exec : executor DB).
Implicit Types (w : world DB).

Lemma addColumn_run w (columnName columnType : string) (columnRows : list row)
    (d1 : DB) :
  exec (db w) PropertyModel.columnNamesQuery [] = (inr columnRows, d1) ->
  let existingColumns := map (fun r => prop r "column_name") columnRows in
  let w1 := World d1 (calls w ++ [(PropertyModel.columnNamesQuery, [])])
                  (console w) in
  let ddl := "ALTER TABLE property_data ADD COLUMN " +:+ columnName +:+ " "
             +:+ toUpperCase columnType +:+ ";" in
  PropertyModel.addColumn exec columnName columnType w
  = if includes existingColumns columnName
    then (inl ("Column '" +:+ columnName
               +:+ "' already exists in the property_data table."), w1)
    else if validateColumnType columnType
    then (no_value (exec d1 ddl []).1,
          World (exec d1 ddl []).2
                (calls w ++ [(PropertyModel.columnNamesQuery, []); (ddl, [])])
                (console w))
    else (inl "Invalid column type", w1).
Proof.
  intros Hlookup existingColumns w1 ddl.
  unfold PropertyModel.addColumn, bind.
  rewrite getTableColumnsNames_run, Hlookup. cbn [fst snd].
  fold existingColumns. destruct (includes existingColumns columnName); [done|].
  unfold buildAddColumnQuery.
  destruct (validateColumnType columnType); cbn [negb]; [|done].
  fold ddl. rewrite pool_query_run. cbn [db calls console].
  rewrite <- app_assoc. cbn [app].
  by destruct (exec d1 ddl []) as [[e|rows] d2].
Qed.


End HandlerMore.

(** X10: the add-column endpoint, for a request body whose columnName
    and columnType are strings. A name that is already a column is
    answered 500 'already exists' before the type is looked at; a new name
    with a type outside the allowed set is answered 500 'Invalid column
    type'; in both cases only the column lookup reached the database. A
    new name with an allowed type sends the ADD COLUMN statement and is
    answered 201 when the database accepts it, 500 with the database's
    message when it does not. *)
Theorem addColumn_endpoint {table : CaseTable} :
  forall (DB : Type) (exec : executor DB) (w : world DB)
         (columnName columnType : string) (columnRows : list row) (d1 : DB),
    exec (db w) PropertyModel.columnNamesQuery [] = (inr columnRows, d1) ->
    let existingColumns := map (fun r => prop r "column_name") columnRows in
    let w1 := World d1 (calls w ++ [(PropertyModel.columnNamesQuery, [])])
                    (console w) in
    let ddl := "ALTER TABLE property_data ADD COLUMN " +:+ columnName +:+ " "
               +:+ toUpperCase columnType +:+ ";" in
    let w2 := World (exec d1 ddl []).2
                    (calls w ++ [(PropertyModel.columnNamesQuery, []); (ddl, [])])
                    (console w) in
    let answer := PropertyController.addColumn exec columnName columnType w in
    (includes existingColumns columnName = true ->
       answer
       = (inr (Response 500 (ErrorMessage
                 ("Column '" +:+ columnName
                  +:+ "' already exists in the property_data table."))), w1))
    /\ (includes existingColumns columnName = false ->
          validateColumnType columnType = false ->
          answer = (inr (Response 500 (ErrorMessage "Invalid column type")), w1))
    /\ (includes existingColumns columnName = false ->
          validateColumnType columnType = true ->
          answer
          = (inr (match (exec d1 ddl []).1 with
                  | inl message => Response 500 (ErrorMessage message)
                  | inr _ => Response 201 (Message ("Column '" +:+ columnName
                                                    +:+ "' added successfully"))
                  end), w2)).
Proof.
  intros DB exec w columnName columnType columnRows d1 Hlookup existingColumns
    w1 ddl w2 answer.
  unfold answer, PropertyController.addColumn. rewrite handler_run.
  rewrite (addColumn_run exec w columnName columnType columnRows d1 Hlookup).
  cbv zeta. fold existingColumns. fold ddl.
  split; [|split].
  - by intros ->.
  - by intros -> ->.
  - intros -> ->. cbn [fst snd]. fold w2.
    by destruct (exec d1 ddl []).1.
Qed.

Lemma addColumn_endpoint_witness :
  PropertyController.addColumn (table := keep_others) queryStub "status" "money"
    (World [inr [[("column_name", VStr "id")]; [("column_name", VStr "status")]]]
           [] [])
  = (inr (Response 500 (ErrorMessage
            "Column 'status' already exists in the property_data table.")),
     World [] [(PropertyModel.columnNamesQuery, [])] []).
Proof.
  refine (proj1 (addColumn_endpoint _ queryStub
    (World [inr [[("column_name", VStr "id")]; [("column_name", VStr "status")]]]
           [] [])
    "status" "money"
    [[("column_name", VStr "id")]; [("column_name", VStr "status")]] [] _) _);
    reflexivity.
Defined.

(** X11: the single-row endpoint sends one SELECT with the id as its
    only bind value and answers by what comes back: 200 with the first
    row when there is one, 404 'Property not found' when the answer has
    no row, 500 with the database's message when the query is rejected. *)
Theorem getPropertyById_endpoint :
  forall (DB : Type) (exec : executor DB) (w : world DB) (id : string),
    let sql := "SELECT * FROM property_data WHERE id = $1" in
    let answer := exec (db w) sql [VStr id] in
    PropertyController.getPropertyById exec id w
    = (inr (match answer.1 with
            | inl message => Response 500 (ErrorMessage message)
            | inr [] => Response 404 (Message "Property not found")
            | inr (first :: _) => Response 200 (Row (Some first))
            end),
       World answer.2 (calls w ++ [(sql, [VStr id])]) (console w)).
Proof.
  intros DB exec w id sql answer. rewrite getPropertyById_run.
  unfold PropertyModel.fetchPropertyById, bind. rewrite pool_query_run.
  change (query (buildSelectQuery "property_data" [("id", VStr id)] ["*"]))
    with sql.
  change (values (buildSelectQuery "property_data" [("id", VStr id)] ["*"]))
    with [VStr id].
  fold answer. by destruct answer as [[e|[|first rows]] d].
Qed.

(** X12: the delete endpoint answers 200 'Property deleted successfully'
    whenever the database accepts the DELETE, whether or not a row
    matched, and 500 only when the database rejects it; the list endpoint
    passes the rows on unchanged. Each sends exactly one statement. *)
Theorem delete_and_list_endpoints :
  forall (DB : Type) (exec : executor DB) (w : world DB) (id : string),
    let del := exec (db w) "DELETE FROM property_data WHERE id = $1" [VStr id] in
    let all := exec (db w) "SELECT * FROM property_data" [] in
    PropertyController.deleteProperty exec id w
    = (inr (match del.1 with
            | inl message => Response 500 (ErrorMessage message)
            | inr _ => Response 200 (Message "Property deleted successfully")
            end),
       World del.2
             (calls w ++ [("DELETE FROM property_data WHERE id = $1", [VStr id])])
             (console w))
    /\ PropertyController.getAllProperties exec w
       = (inr (match all.1 with
               | inl message => Response 500 (ErrorMessage message)
               | inr rows => Response 200 (Rows rows)
               end),
          World all.2 (calls w ++ [("SELECT * FROM property_data", [])])
                (console w)).
Proof.
  intros DB exec w id del all. split.
  - unfold PropertyController.deleteProperty. rewrite handler_run.
    unfold PropertyModel.deleteProperty, bind. rewrite pool_query_run.
    change (query (buildDeleteQuery "property_data" [("id", VStr id)]))
      with "DELETE FROM property_data WHERE id = $1".
    change (values (buildDeleteQuery "property_data" [("id", VStr id)]))
      with [VStr id].
    fold del. by destruct del as [[e|rows] d].
  - unfold PropertyController.getAllProperties. rewrite handler_run.
    unfold PropertyModel.fetchAllProperties, bind. rewrite pool_query_run.
    change (query (buildSelectQuery "property_data" [] ["*"]))
      with "SELECT * FROM property_data".
    change (values (buildSelectQuery "property_data" ([] : obj value) ["*"]))
      with (@nil value).
    fold all. by destruct all as [[e|rows] d].
Qed.

(** X13: the create and update endpoints, for a JSON object body. The
    kept properties are those whose key is a table column, an own
    [__proto__] key apart. When there is none they answer 500 with 'No
    valid columns found to insert' (respectively 'to update') after the
    column lookup alone. Otherwise
    they send the INSERT (UPDATE) built from the kept properties and
    answer 201 (200) with the first returned row, or 500 with the
    database's message if the statement is rejected. *)
Theorem create_update_endpoints :
  forall (DB : Type) (exec : executor DB) (w : world DB) (id : string)
         (body : obj value) (columnRows : list row) (d1 : DB),
    JsObject.enumerated body ->
    exec (db w) PropertyModel.columnNamesQuery [] = (inr columnRows, d1) ->
    let tableColumns := map (fun r => prop r "column_name") columnRows in
    let kept := copied tableColumns body in
    let w1 := World d1 (calls w ++ [(PropertyModel.columnNamesQuery, [])])
                    (console w) in
    let ins := buildInsertQuery "property_data" kept in
    let upd := buildUpdateQuery "property_data" kept [("id", VStr id)] in
    (kept = [] ->
       PropertyController.addProperty exec body w
       = (inr (Response 500 (ErrorMessage "No valid columns found to insert")), w1)
       /\ PropertyController.updateProperty exec id body w
          = (inr (Response 500 (ErrorMessage "No valid columns found to update")),
             w1))
    /\ (kept <> [] ->
          PropertyController.addProperty exec body w
          = (inr (match (exec d1 (query ins) (values ins)).1 with
                  | inl message => Response 500 (ErrorMessage message)
                  | inr rows => Response 201 (Row (head rows))
                  end),
             World (exec d1 (query ins) (values ins)).2
                   (calls w ++ [(PropertyModel.columnNamesQuery, []);
                                (query ins, values ins)])
                   (console w))
          /\ PropertyController.updateProperty exec id body w
             = (inr (match (exec d1 (query upd) (values upd)).1 with
                     | inl message => Response 500 (ErrorMessage message)
                     | inr rows => Response 200 (Row (head rows))
                     end),
                World (exec d1 (query upd) (values upd)).2
                      (calls w ++ [(PropertyModel.columnNamesQuery, []);
                                   (query upd, values upd)])
                      (console w))).
Proof.
  intros DB exec w id body columnRows d1 Henum Hlookup tableColumns kept w1
    ins upd.
  unfold PropertyController.addProperty, PropertyController.updateProperty.
  cbv zeta. rewrite !handler_run.
  rewrite (insertProperty_run exec w body columnRows d1 Hlookup).
  rewrite (updateProperty_run exec w (VStr id) body columnRows d1 Hlookup).
  cbv zeta. fold tableColumns. rewrite !(forEach_copy_own _ _ Henum). fold kept.
  split.
  - intros Hnil. rewrite Hnil. by split.
  - intros Hne. rewrite (keys_nonempty _ Hne). fold ins. fold upd.
    cbn [fst snd]. split.
    + by destruct (exec d1 (query ins) (values ins)).1.
    + by destruct (exec d1 (query upd) (values upd)).1.
Qed.

Lemma create_update_endpoints_witness :
  PropertyController.addProperty queryStub
    [("property_name", VStr "A"); ("price_in_cr", VNum 2)]
    (World [inr [[("column_name", VStr "id")];
                 [("column_name", VStr "property_name")];
                 [("column_name", VStr "price_in_cr")]];
            inr [[("id", VNum 1); ("property_name", VStr "A");
                  ("price_in_cr", VNum 2)]]] [] [])
  = (inr (Response 201 (Row (Some [("id", VNum 1); ("property_name", VStr "A");
                                   ("price_in_cr", VNum 2)]))),
     World []
       [(PropertyModel.columnNamesQuery, []);
        ("INSERT INTO property_data (property_name, price_in_cr) VALUES ($1, $2) RETURNING *",
         [VStr "A"; VNum 2])]
       []).
Proof.
  refine (proj1 (proj2 (create_update_endpoints _ queryStub
    (World [inr [[("column_name", VStr "id")];
                 [("column_name", VStr "property_name")];
                 [("column_name", VStr "price_in_cr")]];
            inr [[("id", VNum 1); ("property_name", VStr "A");
                  ("price_in_cr", VNum 2)]]] [] [])
    "1" [("property_name", VStr "A"); ("price_in_cr", VNum 2)]
    [[("column_name", VStr "id")]; [("column_name", VStr "property_name")];
     [("column_name", VStr "price_in_cr")]]
    [inr [[("id", VNum 1); ("property_name", VStr "A"); ("price_in_cr", VNum 2)]]]
    _ _) _)).
  - solve_enumerated.
  - reflexivity.
  - vm_compute. discriminate.
Defined.

Section DatabaseDown.
Context {DB : Type} (exec : executor DB) (w : world DB) (message : string)
  (d : DB).
Hypothesis down : forall sql vals, exec (db w) sql vals = (inl message, d).

Lemma down_model {A : Type} (sql : string) (vals : list value)
    (k : list row -> M DB A) (ok : A -> response) :
  failed_after_one_call w d message
    (try_catch (bind (bind (pool_query exec sql vals) k) (fun a => ret (ok a)))
               (fun e => ret (Response 500 (ErrorMessage e))) w).
Proof.
  exists (sql, vals). unfold try_catch, bind. by rewrite pool_query_run, down.
Qed.

Lemma down_lookup {A : Type} (k : list value -> M DB A) (ok : A -> response) :
  failed_after_one_call w d message
    (try_catch (bind (bind (PropertyModel.getTableColumnsNames exec) k)
                     (fun a => ret (ok a)))
               (fun e => ret (Response 500 (ErrorMessage e))) w).
Proof.
  exists (PropertyModel.columnNamesQuery, []). unfold try_catch, bind.
  by rewrite getTableColumnsNames_run, down.
Qed.

End DatabaseDown.

(** X14: when the database rejects every statement with the same
    message (the connection is down), each of the nine endpoints answers
    500 with that message after a single attempt: nothing is retried and
    no second statement is sent. *)
Theorem database_down_answers_500 {table : CaseTable} :
  forall (DB : Type) (exec : executor DB) (w : world DB) (message : string)
         (d : DB),
    (forall sql vals, exec (db w) sql vals = (inl message, d)) ->
    forall (id name type old new : string) (body : obj value),
      failed_after_one_call w d message (PropertyController.getAllProperties exec w)
      /\ failed_after_one_call w d message (PropertyController.getPropertyById exec id w)
      /\ failed_after_one_call w d message (PropertyController.addProperty exec body w)
      /\ failed_after_one_call w d message
           (PropertyController.updateProperty exec id body w)
      /\ failed_after_one_call w d message (PropertyController.deleteProperty exec id w)
      /\ failed_after_one_call w d message (PropertyController.addColumn exec name type w)
      /\ failed_after_one_call w d message
           (PropertyController.renameColumn exec old new w)
      /\ failed_after_one_call w d message (PropertyController.deleteColumn exec name w)
      /\ failed_after_one_call w d message (PropertyController.getColumns exec w).
Proof.
  intros DB exec w message d down id name type old new body.
  repeat split.
  - by apply down_model.
  - eexists. rewrite getPropertyById_run.
    unfold PropertyModel.fetchPropertyById, bind.
    rewrite pool_query_run, down. reflexivity.
  - by apply down_lookup.
  - by apply down_lookup.
  - by apply down_model.
  - by apply down_lookup.
  - by apply down_model.
  - by apply down_model.
  - by apply down_model.
Qed.

Lemma database_down_answers_500_witness :
  failed_after_one_call (World [] [] []) [] "queryStub: no answer left"
    (PropertyController.updateProperty queryStub "1" [("status", VStr "sold")]
       (World [] [] [])).
Proof.
  refine (proj1 (proj2 (proj2 (proj2 (database_down_answers_500
    (table := keep_others) _ queryStub
    (World [] [] []) "queryStub: no answer left" [] _ "1" "" "" "" ""
    [("status", VStr "sold")]))))).
  reflexivity.
Defined.


(** * Further properties of schema reconciliation *)

(** X16: [ensureColumns] is best effort. Once the column listing is
    there, it sends one ADD COLUMN for every baseline column the listing
    lacks, in baseline order, and for nothing else. Each statement runs
    in the state the one before it left and writes one console line:
    the success line when the database accepted that statement, the
    error line with the message of the rejection when it did not. A
    rejected statement does not stop the columns after it, and the
    routine itself does not reject. *)
Theorem ensureColumns_best_effort :
  forall (DB : Type) (exec : executor DB) (w : world DB) (columnRows : list row)
         (d1 : DB),
    exec (db w) CheckSchema.columnNamesQuery [] = (inr columnRows, d1) ->
    let existingColumns := map (fun r => prop r "column_name") columnRows in
    let missing :=
      List.filter (fun c => negb (includes existingColumns
                                           (CheckSchema.column_name c)))
                  CheckSchema.requiredColumns in
    let outcome := attempts exec d1 missing in
    CheckSchema.ensureColumns exec w
    = (inr tt,
       World outcome.1
             (calls w ++ (CheckSchema.columnNamesQuery, [])
                         :: map (fun c => (CheckSchema.addColumnQuery c, [])) missing)
             (console w ++ outcome.2))
    /\ length outcome.2 = length missing
    /\ (forall (i : nat) (c : CheckSchema.column),
          missing !! i = Some c ->
          let before := (attempts exec d1 (take i missing)).1 in
          let answer := (exec before (CheckSchema.addColumnQuery c) []).1 in
          outcome.2 !! i
          = Some (match answer with
                  | inl message =>
                      ConsoleError ("Error adding column "
                                    +:+ CheckSchema.column_name c +:+ ":") message
                  | inr _ =>
                      ConsoleLog ("Column '" +:+ CheckSchema.column_name c
                                  +:+ "' added successfully.")
                  end)).
Proof.
  intros DB exec w columnRows d1 Hlookup existingColumns missing outcome.
  split; [|split].
  - rewrite ensureColumns_run, Hlookup. reflexivity.
  - apply attempts_length.
  - intros i c Hi. cbv zeta. unfold outcome.
    by rewrite (attempts_lookup exec d1 missing i c Hi).
Qed.

Lemma ensureColumns_best_effort_witness :
  CheckSchema.ensureColumns queryStub
    (World [inr [[("column_name", VStr "id")];
                 [("column_name", VStr "property_name")];
                 [("column_name", VStr "total_area_in_sqft")];
                 [("column_name", VStr "price_in_cr")];
                 [("column_name", VStr "listed_date")];
                 [("column_name", VStr "total_earnings")]];
            inl "permission denied"; inr []] [] [])
  = (inr tt,
     World []
       [(CheckSchema.columnNamesQuery, []);
        ("ALTER TABLE property_data ADD COLUMN address VARCHAR;", []);
        ("ALTER TABLE property_data ADD COLUMN status VARCHAR;", [])]
       [ConsoleError "Error adding column address:" "permission denied";
        ConsoleLog "Column 'status' added successfully."]).
Proof.
  refine (proj1 (ensureColumns_best_effort _ queryStub
    (World [inr [[("column_name", VStr "id")];
                 [("column_name", VStr "property_name")];
                 [("column_name", VStr "total_area_in_sqft")];
                 [("column_name", VStr "price_in_cr")];
                 [("column_name", VStr "listed_date")];
                 [("column_name", VStr "total_earnings")]];
            inl "permission denied"; inr []] [] [])
    [[("column_name", VStr "id")]; [("column_name", VStr "property_name")];
     [("column_name", VStr "total_area_in_sqft")];
     [("column_name", VStr "price_in_cr")]; [("column_name", VStr "listed_date")];
     [("column_name", VStr "total_earnings")]]
    [inl "permission denied"; inr []] _)).
  reflexivity.
Defined.

(** X17: [ensureTableSchema] never rejects: whatever goes wrong is
    written to the console and the routine resolves. A failure of the
    existence check (a rejection, or an answer without a row) or of
    CREATE TABLE ends the run on the spot: no column is listed or added
    afterwards. *)
Theorem startup_failure_policy :
  forall (DB : Type) (exec : executor DB) (w : world DB) (first : row)
         (rest : list row) (d1 : DB) (message : string) (d2 : DB),
    exec (db w) CheckSchema.tableCheckQuery [] = (inr (first :: rest), d1) ->
    truthy (prop first "exists") = false ->
    exec d1 CheckSchema.createTableQuery [] = (inl message, d2) ->
    CheckSchema.ensureTableSchema exec w
    = (inr tt,
       World d2
             (calls w ++ [(CheckSchema.tableCheckQuery, []);
                          (CheckSchema.createTableQuery, [])])
             (console w ++
              [ConsoleLog "Table property_data does not exist. Creating table...";
               ConsoleError "Error ensuring table schema:" message]))
    /\ (forall w', (CheckSchema.ensureTableSchema exec w').1 = inr tt)
    /\ (forall w' e d,
          exec (db w') CheckSchema.tableCheckQuery [] = (inl e, d) ->
          CheckSchema.ensureTableSchema exec w'
          = (inr tt,
             World d (calls w' ++ [(CheckSchema.tableCheckQuery, [])])
                   (console w' ++ [ConsoleError "Error ensuring table schema:" e])))
    /\ (forall w' d,
          exec (db w') CheckSchema.tableCheckQuery [] = (inr [], d) ->
          CheckSchema.ensureTableSchema exec w'
          = (inr tt,
             World d (calls w' ++ [(CheckSchema.tableCheckQuery, [])])
                   (console w' ++
                    [ConsoleError "Error ensuring table schema:"
                       "Cannot read properties of undefined (reading 'exists')"]))).
Proof.
  intros DB exec w first rest d1 message d2 Hcheck Hexists Hcreate.
  split; [|split; [|split]].
  - unfold CheckSchema.ensureTableSchema, try_catch.
    unfold bind at 1. unfold bind at 1. unfold bind at 1.
    rewrite pool_query_run, Hcheck. cbn [fst snd head]. unfold ret at 1.
    rewrite Hexists. cbn [negb]. unfold bind at 1. unfold console_log at 1.
    cbn [db calls console]. unfold bind at 1.
    rewrite pool_query_run. cbn [db calls console]. rewrite Hcreate.
    cbn [fst snd]. unfold console_error. cbn [db calls console].
    by rewrite <- !app_assoc.
  - intros w'. unfold CheckSchema.ensureTableSchema, try_catch.
    by destruct (bind _ _ w') as [[e|[]] w''].
  - intros w' e d H. unfold CheckSchema.ensureTableSchema, try_catch.
    unfold bind at 1. unfold bind at 1. unfold bind at 1.
    by rewrite pool_query_run, H.
  - intros w' d H. unfold CheckSchema.ensureTableSchema, try_catch.
    unfold bind at 1. unfold bind at 1. unfold bind at 1.
    by rewrite pool_query_run, H.
Qed.

Lemma startup_failure_policy_witness :
  CheckSchema.ensureTableSchema queryStub
    (World [inr [[("exists", VBool false)]]; inl "permission denied for schema public"]
           [] [])
  = (inr tt,
     World []
       [(CheckSchema.tableCheckQuery, []); (CheckSchema.createTableQuery, [])]
       [ConsoleLog "Table property_data does not exist. Creating table...";
        ConsoleError "Error ensuring table schema:"
                     "permission denied for schema public"]).
Proof.
  refine (proj1 (startup_failure_policy _ queryStub
    (World [inr [[("exists", VBool false)]]; inl "permission denied for schema public"]
           [] [])
    [("exists", VBool false)] [] [inl "permission denied for schema public"]
    "permission denied for schema public" [] _ _ _)); reflexivity.
Defined.

(** ** The repository's add-column against the catalog *)

Lemma baseline_statements_agree {table : CaseTable} :
  Forall (fun c => buildAddColumnQuery (CheckSchema.column_name c)
                                       (CheckSchema.data_type c)
                   = inr (CheckSchema.addColumnQuery c))
         CheckSchema.requiredColumns.
Proof. repeat constructor. Qed.

Lemma catalog_lookup (cols : list string) :
  Catalog.exec (Some cols) PropertyModel.columnNamesQuery []
  = (inr (map (fun c => [("column_name", VStr c)]) cols), Some cols).
Proof.
  unfold Catalog.exec.
  change PropertyModel.columnNamesQuery with CheckSchema.columnNamesQuery.
  by rewrite classify_columnNames.
Qed.

(** X18: on the catalog, adding a missing baseline column through the
    repository's [addColumn] sends the very statement the reconciler
    would send, the column then shows in the listing, a second
    [addColumn] of the same name (with any type) fails with 'already
    exists' and leaves the table alone, and reconciliation no longer
    counts the column as missing. *)
Theorem addColumn_then_exists {table : CaseTable} :
  forall (cols : list string) (c : CheckSchema.column),
    c ∈ CheckSchema.requiredColumns ->
    includes_str cols (CheckSchema.column_name c) = false ->
    let name := CheckSchema.column_name c in
    let cols' := cols ++ [name] in
    PropertyModel.addColumn Catalog.exec name (CheckSchema.data_type c)
      (World (Some cols) [] [])
    = (inr tt,
       World (Some cols')
             [(PropertyModel.columnNamesQuery, []);
              (CheckSchema.addColumnQuery c, [])] [])
    /\ (forall (type : string) (sent : list call) (out : list console_line),
          PropertyModel.addColumn Catalog.exec name type (World (Some cols') sent out)
          = (inl ("Column '" +:+ name
                  +:+ "' already exists in the property_data table."),
             World (Some cols') (sent ++ [(PropertyModel.columnNamesQuery, [])])
                   out))
    /\ c ∉ missingColumns cols'.
Proof.
  intros cols c Hreq Hmiss name cols'.
  pose proof (proj1 (Forall_forall _ _) baseline_statements_agree c Hreq)
    as Hstmt.
  pose proof (proj1 (Forall_forall _ _) classify_addColumn c Hreq) as Hcls.
  cbn beta in Hstmt, Hcls. fold name in Hstmt, Hcls, Hmiss.
  split; [|split].
  - rewrite (addColumn_run Catalog.exec (World (Some cols) [] []) name
               (CheckSchema.data_type c) _ (Some cols)
               (catalog_lookup cols)).
    cbv zeta. cbn [db calls console app]. rewrite column_rows_names.
    rewrite includes_VStr, Hmiss.
    unfold buildAddColumnQuery in Hstmt.
    destruct (validateColumnType (CheckSchema.data_type c)); [|discriminate].
    cbn [negb] in Hstmt.
    apply (f_equal (fun x : string + string =>
                      match x with inr s => s | inl _ => "" end)) in Hstmt.
    cbn beta iota in Hstmt. rewrite Hstmt.
    unfold Catalog.exec. rewrite Hcls. by rewrite Hmiss.
  - intros type sent out.
    rewrite (addColumn_run Catalog.exec (World (Some cols') sent out) name
               type _ (Some cols') (catalog_lookup cols')).
    cbv zeta. cbn [db calls console]. rewrite column_rows_names.
    rewrite includes_VStr. unfold cols'.
    rewrite includes_str_app.
    replace (includes_str [name] name) with true
      by (unfold includes_str; cbn; by rewrite String.eqb_refl).
    by rewrite orb_true_r.
  - unfold missingColumns. rewrite list_elem_of_In, filter_In.
    intros [_ H]. apply negb_true_iff in H. fold name in H.
    unfold cols' in H. rewrite includes_str_app in H.
    replace (includes_str [name] name) with true in H
      by (unfold includes_str; cbn; by rewrite String.eqb_refl).
    by rewrite orb_true_r in H.
Qed.

Lemma addColumn_then_exists_witness :
  PropertyModel.addColumn (table := keep_others) Catalog.exec "status" "VARCHAR"
    (World (Some ["id"; "property_name"]) [] [])
  = (inr tt,
     World (Some ["id"; "property_name"; "status"])
           [(PropertyModel.columnNamesQuery, []);
            ("ALTER TABLE property_data ADD COLUMN status VARCHAR;", [])] []).
Proof.
  refine (proj1 (addColumn_then_exists ["id"; "property_name"]
    (CheckSchema.Column "status" "VARCHAR") _ _)).
  - do 5 right. left.
  - reflexivity.
Defined.
